(** * Costcodle: game number, guess evaluation and session reconciliation

    A shallow embedding of the deterministic core of the Costcodle price
    guessing game:

    - the utilities module (listed after the state manager in
      [src/modules/state.ts]): [dateUtils.getGameNumber],
      [mathUtils.calculatePercentDifference], [mathUtils.isWithinPercent],
      [validation.validateGameNumber];
    - the game logic module (listed after the type declarations in
      [src/types/game.ts]): [gameMechanics.createGuessObject],
      [gameMechanics.processGuess];
    - [src/modules/state.ts]: the [StateManager] class
      ([initializeGame], [addGuess], [setGameWon], [setGameLost],
      [canGuess], [gameComplete]);
    - [src/modules/constants.ts]: [GAME_CONFIG], [DEFAULT_USER_STATS],
      [DEFAULT_GAME_STATE].

    Conventions of the embedding.

    - The [StateManager] singleton is mutated in place; here every method is
      a function from [AppState] to [AppState].  Subscriber notifications do
      not feed back into the state (the subscribers of [app.ts] only log)
      and are left out, as are the DOM calls of [processGuess].  Writes to
      [localStorage] ([persist]) are not threaded through the methods: every
      method that changes a stored field persists it, so the stored entries
      are those of the current state ([persisted]), and that is what a page
      load reads back ([loadFromStorage], [reload]).
    - Integer valued JavaScript numbers (game numbers, counters, timestamps
      in milliseconds) are [Z].
    - Prices and percentages are JavaScript numbers used with fractional
      values.  The code is written once against the interface [JSNumber]
      and run on two implementations: [Exact.number] (rationals extended
      with the infinities and NaN, no rounding) and [Binary64.number] (the
      IEEE 754 double precision numbers JavaScript uses). *)

From Stdlib Require Import ZArith QArith Qabs Qfield Qround Bool List String Ascii Lia.
From Stdlib Require Import PrimFloat SpecFloat FloatOps.
From stdpp Require Import base list.

Local Open Scope Z_scope.

(** ** JavaScript numbers *)

(** The operations on numbers that the modelled code uses. *)
Class JSNumber (num : Type) : Type := {
  num_of_Z : Z -> num;            (* an integer literal *)
  num_Infinity : num;             (* [Infinity] *)
  num_NaN : num;                  (* [NaN] *)
  num_mul : num -> num -> num;    (* [a * b] *)
  num_div : num -> num -> num;    (* [a / b] *)
  num_sub : num -> num -> num;    (* [a - b] *)
  num_abs : num -> num;           (* [Math.abs(a)] *)
  num_eqb : num -> num -> bool;   (* [a === b] *)
  num_ltb : num -> num -> bool;   (* [a < b] *)
  num_leb : num -> num -> bool;   (* [a <= b] *)
  num_isNaN : num -> bool         (* [isNaN(a)] *)
}.

(** Exact arithmetic: rationals, the two infinities and NaN, with the IEEE
    rules for the special values (there is no negative zero). *)
Module Exact.

Inductive number : Type :=
| NaN : number
| Inf (negative : bool) : number
| Fin (q : Q) : number.

Definition Qneg (q : Q) : bool := (Qnum q <? 0)%Z.
Definition Qzero (q : Q) : bool := Qeq_bool q 0.
Definition Qlt_bool (p q : Q) : bool := negb (Qle_bool q p).

Definition mul (a b : number) : number :=
  match a, b with
  | NaN, _ | _, NaN => NaN
  | Inf s, Inf s' => Inf (xorb s s')
  | Inf s, Fin q | Fin q, Inf s => if Qzero q then NaN else Inf (xorb s (Qneg q))
  | Fin p, Fin q => Fin (p * q)
  end.

Definition div (a b : number) : number :=
  match a, b with
  | NaN, _ | _, NaN => NaN
  | Inf _, Inf _ => NaN
  | Inf s, Fin q => Inf (xorb s (Qneg q))
  | Fin _, Inf _ => Fin 0
  | Fin p, Fin q =>
      if Qzero q then (if Qzero p then NaN else Inf (Qneg p)) else Fin (p / q)
  end.

Definition sub (a b : number) : number :=
  match a, b with
  | NaN, _ | _, NaN => NaN
  | Inf s, Inf s' => if Bool.eqb s s' then NaN else Inf s
  | Inf s, Fin _ => Inf s
  | Fin _, Inf s => Inf (negb s)
  | Fin p, Fin q => Fin (p - q)
  end.

Definition abs (a : number) : number :=
  match a with
  | NaN => NaN
  | Inf _ => Inf false
  | Fin q => Fin (Qabs q)
  end.

Definition eqb (a b : number) : bool :=
  match a, b with
  | Inf s, Inf s' => Bool.eqb s s'
  | Fin p, Fin q => Qeq_bool p q
  | _, _ => false
  end.

Definition ltb (a b : number) : bool :=
  match a, b with
  | NaN, _ | _, NaN => false
  | Inf s, Inf s' => s && negb s'
  | Inf s, Fin _ => s
  | Fin _, Inf s => negb s
  | Fin p, Fin q => Qlt_bool p q
  end.

Definition leb (a b : number) : bool :=
  match a, b with
  | NaN, _ | _, NaN => false
  | Inf s, Inf s' => s || negb s'
  | Inf s, Fin _ => s
  | Fin _, Inf s => negb s
  | Fin p, Fin q => Qle_bool p q
  end.

Definition isNaN (a : number) : bool :=
  match a with NaN => true | _ => false end.

#[global] Instance number_JSNumber : JSNumber number := {
  num_of_Z z := Fin (inject_Z z);
  num_Infinity := Inf false;
  num_NaN := NaN;
  num_mul := mul;
  num_div := div;
  num_sub := sub;
  num_abs := abs;
  num_eqb := eqb;
  num_ltb := ltb;
  num_leb := leb;
  num_isNaN := isNaN
}.

End Exact.

(** IEEE 754 binary64, through Rocq's primitive floats: the arithmetic of
    the JavaScript engine, rounding included. *)
Module Binary64.

Definition number : Type := PrimFloat.float.

(** The double nearest to an integer (round to nearest, ties to even). *)
Definition of_Z (z : Z) : number :=
  SF2Prim (binary_normalize prec emax z 0 false).

#[global] Instance number_JSNumber : JSNumber number := {
  num_of_Z := of_Z;
  num_Infinity := PrimFloat.infinity;
  num_NaN := PrimFloat.nan;
  num_mul := PrimFloat.mul;
  num_div := PrimFloat.div;
  num_sub := PrimFloat.sub;
  num_abs := PrimFloat.abs;
  num_eqb := PrimFloat.eqb;
  num_ltb := PrimFloat.ltb;
  num_leb := PrimFloat.leb;
  num_isNaN := PrimFloat.is_nan
}.

End Binary64.

(** ** Types ([src/types/game.ts]) and constants ([src/modules/constants.ts]) *)

(** ['guess-win' | 'guess-near' | 'guess-far'] *)
Inductive GuessCloseness : Type := guess_win | guess_near | guess_far.

(** ['&uarr;' | '&darr;' | '&check;'] *)
Inductive GuessDirection : Type := uarr | darr | check.

Definition GuessCloseness_eqb (a b : GuessCloseness) : bool :=
  match a, b with
  | guess_win, guess_win | guess_near, guess_near | guess_far, guess_far => true
  | _, _ => false
  end.

Module GAME_CONFIG.
Definition MAX_GUESSES : Z := 6.
Definition WIN_THRESHOLD_PERCENT : Z := 5.
Definition NEAR_THRESHOLD_PERCENT : Z := 25.
(** [new Date('09/21/2023')]: midnight of 21 September 2023 in the zone of
    the host, in milliseconds since the Unix epoch.  [START_DATE_UTC] is
    that midnight in UTC; [tzOffset] is [Date.prototype.getTimezoneOffset]
    on that date, the minutes to add to local time to get UTC. *)
Definition START_DATE_UTC : Z := 1695254400000.
Definition COSTCODLE_START_DATE (tzOffset : Z) : Z :=
  START_DATE_UTC + tzOffset * 60000.
End GAME_CONFIG.

Module CSS_CLASSES.
Definition WIN : GuessCloseness := guess_win.
Definition NEAR : GuessCloseness := guess_near.
Definition FAR : GuessCloseness := guess_far.
End CSS_CLASSES.

Module DIRECTION_SYMBOLS.
Definition UP : GuessDirection := uarr.
Definition DOWN : GuessDirection := darr.
Definition CHECK : GuessDirection := check.
End DIRECTION_SYMBOLS.

(** [interface Guess] *)
Record Guess (num : Type) : Type := mkGuess {
  guess : num;
  closeness : GuessCloseness;
  direction : GuessDirection
}.
Arguments mkGuess {num} _ _ _.
Arguments guess {num} _.
Arguments closeness {num} _.
Arguments direction {num} _.

(** [interface GameState] *)
Record GameState (num : Type) : Type := mkGameState {
  gameNumber : Z;
  guesses : list (Guess num);
  hasWon : bool
}.
Arguments mkGameState {num} _ _ _.
Arguments gameNumber {num} _.
Arguments guesses {num} _.
Arguments hasWon {num} _.

(** [interface UserStats] *)
Record UserStats : Type := mkUserStats {
  numGames : Z;
  numWins : Z;
  winsInNum : list Z;
  currentStreak : Z;
  maxStreak : Z
}.

(** [Partial<GameState>] and [Partial<UserStats>]: the object literals
    handed to [updateGameState] and [updateUserStats]; an absent key is
    [None]. *)
Record PartialGameState (num : Type) : Type := mkPartialGameState {
  new_gameNumber : option Z;
  new_guesses : option (list (Guess num));
  new_hasWon : option bool
}.
Arguments mkPartialGameState {num} _ _ _.
Arguments new_gameNumber {num} _.
Arguments new_guesses {num} _.
Arguments new_hasWon {num} _.

Record PartialUserStats : Type := mkPartialUserStats {
  new_numGames : option Z;
  new_numWins : option Z;
  new_winsInNum : option (list Z);
  new_currentStreak : option Z;
  new_maxStreak : option Z
}.

(** [interface AppState], without the fields that only drive the view
    ([productName], [productImage], [isLoading], [currentModal],
    [previousFocus]).  [AppState.gameNumber] is the number of the puzzle being
    played, [gameNumber (AppState.gameState s)] the number the stored session
    belongs to. *)
Module AppState.
Record t (num : Type) : Type := mk {
  isArchiveMode : bool;
  selectedGameNumber : Z;
  gameNumber : Z;
  productPrice : num;
  gameState : GameState num;
  userStats : UserStats
}.
Arguments mk {num} _ _ _ _ _ _.
Arguments isArchiveMode {num} _.
Arguments selectedGameNumber {num} _.
Arguments gameNumber {num} _.
Arguments productPrice {num} _.
Arguments gameState {num} _.
Arguments userStats {num} _.
End AppState.
Abbreviation AppState := AppState.t.

(** The error texts of [ERROR_MESSAGES] that the model reports;
    [GAME_NUMBER_RANGE max] is the template with [{max}] filled in. *)
Inductive ErrorMessage (num : Type) : Type :=
| INVALID_INPUT
| INVALID_NUMBER
| PRICE_RANGE
| DECIMAL_PLACES
| GAME_NUMBER_RANGE (max : num).
Arguments INVALID_INPUT {num}.
Arguments INVALID_NUMBER {num}.
Arguments PRICE_RANGE {num}.
Arguments DECIMAL_PLACES {num}.
Arguments GAME_NUMBER_RANGE {num} _.

(** [interface ValidationResult]: the validators build either
    [{ valid: false, error }] or [{ valid: true, value, formatted? }]. *)
Inductive ValidationResult (num : Type) : Type :=
| Invalid (error : ErrorMessage num)
| Valid (value : num) (formatted : option string).
Arguments Invalid {num} _.
Arguments Valid {num} _ _.

Definition valid {num : Type} (r : ValidationResult num) : bool :=
  match r with Valid _ _ => true | Invalid _ => false end.

Definition DEFAULT_USER_STATS : UserStats :=
  {| numGames := 0; numWins := 0; winsInNum := [0; 0; 0; 0; 0; 0];
     currentStreak := 0; maxStreak := 0 |}.

Definition DEFAULT_GAME_STATE {num : Type} : GameState num :=
  {| gameNumber := -1; guesses := []; hasWon := false |}.

(** ** Utilities (module [utils]) *)

(** [Math.ceil(a / b)] for integers [a] and [b > 0].  The quotient of the
    code is a double; for [|a| < 2^53] and [b = 86400000] its rounding error
    is below [1/b], so the ceiling of the double is the exact ceiling. *)
Definition Math_ceil_div (a b : Z) : Z := - ((- a) / b).

Module dateUtils.
Definition MS_PER_DAY : Z := 1000 * 3600 * 24.

(** [getGameNumber()], with the clock reading [now] ([new Date().getTime()])
    and the zone offset of the host on the start date as arguments (the
    offset in force at [now] plays no part in it); the division and
    [Math.ceil] are taken in one step. *)
Definition getGameNumber (tzOffset now : Z) : Z :=
  let timeDifference := now - GAME_CONFIG.COSTCODLE_START_DATE tzOffset in
  Math_ceil_div timeDifference MS_PER_DAY.

(** The local calendar day of a timestamp, counted in days since the Unix
    epoch, where [tzOffset] is the offset of the host at that timestamp. *)
Definition localDay (tzOffset t : Z) : Z := (t - tzOffset * 60000) / MS_PER_DAY.

(** Whether the local clock shows 00:00:00.000 at [t], with the offset of
    the host at [t]. *)
Definition atMidnight (tzOffset t : Z) : bool :=
  (t - tzOffset * 60000) mod MS_PER_DAY =? 0.
End dateUtils.

(** The white space that [parseInt] skips, among the ASCII characters. *)
Definition isStrWhiteSpaceChar (c : ascii) : bool :=
  let n := nat_of_ascii c in
  ((9 <=? n) && (n <=? 13))%nat || (n =? 32)%nat.

Definition isDigit (c : ascii) : bool :=
  let n := nat_of_ascii c in ((48 <=? n) && (n <=? 57))%nat.

Definition digitValue (c : ascii) : Z := Z.of_nat (nat_of_ascii c) - 48.

Fixpoint skipWhiteSpace (s : string) : string :=
  match s with
  | String c rest => if isStrWhiteSpaceChar c then skipWhiteSpace rest else s
  | EmptyString => EmptyString
  end.

(** The value of the longest prefix of decimal digits, after the digits
    already read ([acc], [seen] tells whether there was one). *)
Fixpoint parseDigits (s : string) (seen : bool) (acc : Z) : option Z :=
  match s with
  | String c rest =>
      if isDigit c then parseDigits rest true (10 * acc + digitValue c)
      else if seen then Some acc else None
  | EmptyString => if seen then Some acc else None
  end.

(** The mathematical integer [parseInt(s, 10)] reads, [None] for [NaN]:
    leading white space, an optional sign, then the longest run of digits;
    whatever follows the digits is ignored. *)
Definition parseIntZ (s : string) : option Z :=
  match skipWhiteSpace s with
  | String "-" rest => option_map Z.opp (parseDigits rest false 0)
  | String "+" rest => parseDigits rest false 0
  | t => parseDigits t false 0
  end.

(** Whether a string contains a decimal digit, and whether it consists of
    decimal digits only. *)
Fixpoint hasDigit (s : string) : bool :=
  match s with
  | String c rest => isDigit c || hasDigit rest
  | EmptyString => false
  end.

Fixpoint allDigits (s : string) : bool :=
  match s with
  | String c rest => isDigit c && allDigits rest
  | EmptyString => true
  end.

Section Code.
Context {num : Type} {NUM : JSNumber num}.

Definition parseInt (s : string) : num :=
  match parseIntZ s with
  | Some z => num_of_Z z
  | None => num_NaN
  end.

(** [validation.validateGameNumber]; the argument is a number ([inl]) or a
    string ([inr]). *)
Definition validateGameNumber (gameNumber : num + string) (maxGameNumber : num)
  : ValidationResult num :=
  let n := match gameNumber with inr s => parseInt s | inl n => n end in
  if num_isNaN n || num_ltb n (num_of_Z 1) || num_ltb maxGameNumber n then
    Invalid (GAME_NUMBER_RANGE maxGameNumber)
  else Valid n None.

(** [mathUtils.calculatePercentDifference] *)
Definition calculatePercentDifference (guess target : num) : num :=
  if num_eqb target (num_of_Z 0) then
    (if num_eqb guess (num_of_Z 0) then num_of_Z 0 else num_Infinity)
  else
    num_sub
      (num_mul
         (num_div (num_mul guess (num_of_Z 100)) (num_mul target (num_of_Z 100)))
         (num_of_Z 100))
      (num_of_Z 100).

(** [mathUtils.isWithinPercent] *)
Definition isWithinPercent (value target percent : num) : bool :=
  let difference := num_abs (calculatePercentDifference value target) in
  num_leb difference percent.

(** ** Game mechanics (module [game]) *)

(** [gameMechanics.createGuessObject]; the product price is read from the
    state. *)
Definition createGuessObject (guessValue : num) (st : AppState num) : Guess num :=
  let productPrice := AppState.productPrice st in
  let percentAway := calculatePercentDifference guessValue productPrice in
  let closeness :=
    if num_leb (num_abs percentAway) (num_of_Z GAME_CONFIG.WIN_THRESHOLD_PERCENT)
    then CSS_CLASSES.WIN
    else if num_leb (num_abs percentAway)
                    (num_of_Z GAME_CONFIG.NEAR_THRESHOLD_PERCENT)
    then CSS_CLASSES.NEAR
    else CSS_CLASSES.FAR in
  let direction :=
    if GuessCloseness_eqb closeness CSS_CLASSES.WIN then DIRECTION_SYMBOLS.CHECK
    else if num_ltb percentAway (num_of_Z 0) then DIRECTION_SYMBOLS.UP
    else DIRECTION_SYMBOLS.DOWN in
  {| guess := guessValue; closeness := closeness; direction := direction |}.

End Code.

(** ** The state manager ([src/modules/state.ts]) *)

Section StateManager.
Context {num : Type}.

(** [{ ...this.state.gameState, ...updates }] *)
Definition updateGameState (updates : PartialGameState num) (st : AppState num)
  : AppState num :=
  let old := AppState.gameState st in
  AppState.mk (AppState.isArchiveMode st) (AppState.selectedGameNumber st)
    (AppState.gameNumber st) (AppState.productPrice st)
    {| gameNumber := default (gameNumber old) (new_gameNumber updates);
       guesses := default (guesses old) (new_guesses updates);
       hasWon := default (hasWon old) (new_hasWon updates) |}
    (AppState.userStats st).

(** [{ ...this.state.userStats, ...updates }] *)
Definition updateUserStats (updates : PartialUserStats) (st : AppState num)
  : AppState num :=
  let old := AppState.userStats st in
  AppState.mk (AppState.isArchiveMode st) (AppState.selectedGameNumber st)
    (AppState.gameNumber st) (AppState.productPrice st)
    (AppState.gameState st)
    {| numGames := default (numGames old) (new_numGames updates);
       numWins := default (numWins old) (new_numWins updates);
       winsInNum := default (winsInNum old) (new_winsInNum updates);
       currentStreak := default (currentStreak old) (new_currentStreak updates);
       maxStreak := default (maxStreak old) (new_maxStreak updates) |}.

(** [initializeGame()] *)
Definition initializeGame (st : AppState num) : AppState num :=
  if AppState.isArchiveMode st then
    updateGameState
      {| new_gameNumber := Some (AppState.gameNumber st);
         new_guesses := Some [];
         new_hasWon := Some false |} st
  else if negb (gameNumber (AppState.gameState st) =? AppState.gameNumber st) then
    let st1 :=
      if Bool.eqb (hasWon (AppState.gameState st)) false
      then updateUserStats
             {| new_numGames := None; new_numWins := None; new_winsInNum := None;
                new_currentStreak := Some 0; new_maxStreak := None |} st
      else st in
    let st2 :=
      updateGameState
        {| new_gameNumber := Some (AppState.gameNumber st1);
           new_guesses := Some [];
           new_hasWon := Some false |} st1 in
    updateUserStats
      {| new_numGames := Some (numGames (AppState.userStats st2) + 1);
         new_numWins := None; new_winsInNum := None;
         new_currentStreak := None; new_maxStreak := None |} st2
  else st.

(** [addGuess(guess)] *)
Definition addGuess (g : Guess num) (st : AppState num) : AppState num :=
  let newGuesses := guesses (AppState.gameState st) ++ [g] in
  updateGameState
    {| new_gameNumber := None; new_guesses := Some newGuesses;
       new_hasWon := None |} st.

(** [x || 0] on a number: [0] and [NaN] are the falsy numbers. *)
Definition or_zero (x : Z) : Z := if x =? 0 then 0 else x.

(** [setGameWon()].  An array read out of range gives [undefined], and
    [undefined || 0] is [0]. *)
Definition setGameWon (st : AppState num) : AppState num :=
  let st1 :=
    updateGameState
      {| new_gameNumber := None; new_guesses := None; new_hasWon := Some true |}
      st in
  if negb (AppState.isArchiveMode st1) then
    let stats := AppState.userStats st1 in
    let newWinsInNum := winsInNum stats in
    let guessIndex := Z.of_nat (length (guesses (AppState.gameState st1))) - 1 in
    let newWinsInNum :=
      if (0 <=? guessIndex) && (guessIndex <? Z.of_nat (length newWinsInNum))
      then <[Z.to_nat guessIndex :=
               or_zero (default 0 (newWinsInNum !! Z.to_nat guessIndex)) + 1]>
             newWinsInNum
      else newWinsInNum in
    let newCurrentStreak := currentStreak stats + 1 in
    let newMaxStreak := Z.max newCurrentStreak (maxStreak stats) in
    updateUserStats
      {| new_numGames := None;
         new_numWins := Some (numWins stats + 1);
         new_winsInNum := Some newWinsInNum;
         new_currentStreak := Some newCurrentStreak;
         new_maxStreak := Some newMaxStreak |} st1
  else st1.

(** [setGameLost()] *)
Definition setGameLost (st : AppState num) : AppState num :=
  if negb (AppState.isArchiveMode st) then
    updateUserStats
      {| new_numGames := None; new_numWins := None; new_winsInNum := None;
         new_currentStreak := Some 0; new_maxStreak := None |} st
  else st.

(** [get canGuess()] *)
Definition canGuess (st : AppState num) : bool :=
  (Z.of_nat (length (guesses (AppState.gameState st))) <? GAME_CONFIG.MAX_GUESSES)
  && negb (hasWon (AppState.gameState st)).

(** [get gameComplete()] *)
Definition gameComplete (st : AppState num) : bool :=
  hasWon (AppState.gameState st)
  || (GAME_CONFIG.MAX_GUESSES <=? Z.of_nat (length (guesses (AppState.gameState st)))).

(** One page load in a given mode for a given puzzle: the constructor sets
    [isArchiveMode] and [gameNumber] ([calculateGameNumber]), then
    [gameInitializer.startGame] calls [initializeGame].  This is the
    operation the specification calls [reconcile]: [archive] is the mode,
    [requested] the requested index, the session and the statistics are
    those of [st]. *)
Definition reconcile (archive : bool) (requested : Z) (st : AppState num)
  : AppState num :=
  initializeGame
    (AppState.mk archive (AppState.selectedGameNumber st) requested
       (AppState.productPrice st) (AppState.gameState st) (AppState.userStats st)).

End StateManager.

(** ** Processing a guess ([gameMechanics.processGuess]) *)

Section ProcessGuess.
Context {num : Type} {NUM : JSNumber num}.

(** [handleGameWon] and [handleGameLost] without [endGame], which only
    touches the page. *)
Definition handleGameWon (st : AppState num) : AppState num := setGameWon st.
Definition handleGameLost (st : AppState num) : AppState num := setGameLost st.

(** The body of [processGuess] once the input has been validated, from
    [if (!stateManager.canGuess)] on, for the validated number [value]: the
    state after the call and the returned boolean. *)
Definition processValidGuess (value : num) (st : AppState num)
  : AppState num * bool :=
  if negb (canGuess st) then (st, false)
  else
    let guess := createGuessObject value st in
    let st1 := addGuess guess st in
    let gameState := AppState.gameState st1 in
    let st2 :=
      if GuessCloseness_eqb (closeness guess) CSS_CLASSES.WIN
      then handleGameWon st1
      else if GAME_CONFIG.MAX_GUESSES <=? Z.of_nat (length (guesses gameState))
      then handleGameLost st1
      else st1 in
    (st2, true).

(** [processGuess(userInput)].  [validation.validatePriceInput] turns the
    text of the input field into a number; [processGuess] only looks at
    [valid] and [value] of its result, so the validator is an argument
    here. *)
Definition processGuess (validatePriceInput : string -> ValidationResult num)
    (userInput : string) (st : AppState num) : AppState num * bool :=
  if String.eqb userInput EmptyString then (st, false)
  else
    match validatePriceInput userInput with
    | Invalid _ => (st, false)
    | Valid value _ => processValidGuess value st
    end.

(** [setProductData(name, price, image)], the price only. *)
Definition setProductData (price : num) (st : AppState num) : AppState num :=
  AppState.mk (AppState.isArchiveMode st) (AppState.selectedGameNumber st)
    (AppState.gameNumber st) price (AppState.gameState st)
    (AppState.userStats st).

(** The state the constructor builds when [localStorage] is empty, on a day
    whose game number is [today]. *)
Definition initialState (today : Z) : AppState num :=
  AppState.mk false 1 today (num_of_Z 0) DEFAULT_GAME_STATE DEFAULT_USER_STATS.

End ProcessGuess.

(** ** Sequences of operations *)

(** The operations of the session reconciler: a page load in a mode for a
    puzzle, the price of the product of that puzzle, and a validated
    guess. *)
Inductive Operation (num : Type) : Type :=
| Reconcile (archive : bool) (requested : Z)
| SetProductData (price : num)
| RecordGuess (value : num).
Arguments Reconcile {num} _ _.
Arguments SetProductData {num} _.
Arguments RecordGuess {num} _.

(** What can happen while the game stays in archive mode: navigation to
    a puzzle, guesses, and the calls that finish a game. *)
Inductive ArchiveStep (num : Type) : Type :=
| Navigate (requested : Z)
| Price (price : num)
| Append (g : Guess num)
| Won
| Lost
| Guessed (value : num).
Arguments Navigate {num} _.
Arguments Price {num} _.
Arguments Append {num} _.
Arguments Won {num}.
Arguments Lost {num}.
Arguments Guessed {num} _.

Section Traces.
Context {num : Type} {NUM : JSNumber num}.

Definition perform (st : AppState num) (op : Operation num) : AppState num :=
  match op with
  | Reconcile archive requested => reconcile archive requested st
  | SetProductData price => setProductData price st
  | RecordGuess value => fst (processValidGuess value st)
  end.

Definition performAll (ops : list (Operation num)) (st : AppState num)
  : AppState num :=
  fold_left perform ops st.

Definition archiveStep (st : AppState num) (a : ArchiveStep num) : AppState num :=
  match a with
  | Navigate requested => reconcile true requested st
  | Price price => setProductData price st
  | Append g => addGuess g st
  | Won => setGameWon st
  | Lost => setGameLost st
  | Guessed value => fst (processValidGuess value st)
  end.

Definition archiveSteps (l : list (ArchiveStep num)) (st : AppState num)
  : AppState num :=
  fold_left archiveStep l st.

(** Bookkeeping for the statistics: whether the session of the state was
    opened by a page load in daily mode that found another puzzle stored
    (and so was counted in [numGames]).  A page load in archive mode
    replaces the session by one that was not. *)
Definition openedAfter (st : AppState num) (opened : bool) (op : Operation num)
  : bool :=
  match op with
  | Reconcile true _ => false
  | Reconcile false requested =>
      if gameNumber (AppState.gameState st) =? requested
      then opened && negb (AppState.isArchiveMode st)
      else true
  | SetProductData _ | RecordGuess _ => opened
  end.

(** Every guess made in daily mode is made in a session opened in daily
    mode. *)
Fixpoint dailyGuessesCounted (ops : list (Operation num)) (st : AppState num)
    (opened : bool) : bool :=
  match ops with
  | [] => true
  | op :: rest =>
      match op with
      | RecordGuess _ => AppState.isArchiveMode st || opened
      | _ => true
      end
      && dailyGuessesCounted rest (perform st op) (openedAfter st opened op)
  end.

(** The invariants carried along a sequence of operations: the streak is
    never negative and never above the maximum; and a session opened in
    daily mode and not yet won has been counted in [numGames] and not in
    [numWins]. *)
Definition streakInvariant (st : AppState num) : Prop :=
  0 <= currentStreak (AppState.userStats st)
  /\ currentStreak (AppState.userStats st) <= maxStreak (AppState.userStats st).

Definition winsInvariant (st : AppState num) (opened : bool) : Prop :=
  numWins (AppState.userStats st) <= numGames (AppState.userStats st)
  /\ (AppState.isArchiveMode st = false -> opened = true ->
      hasWon (AppState.gameState st) = false ->
      numWins (AppState.userStats st) + 1 <= numGames (AppState.userStats st)).

End Traces.

(** ** The evaluation of a guess, as the specification words it *)

Definition spec_percentAway (guess target : Q) : Q :=
  ((guess - target) / target * 100)%Q.

Definition spec_closeness (percentAway : Q) : GuessCloseness :=
  if Qle_bool (Qabs percentAway) 5 then guess_win
  else if Qle_bool (Qabs percentAway) 25 then guess_near
  else guess_far.

Definition spec_direction (percentAway : Q) : GuessDirection :=
  if Qle_bool (Qabs percentAway) 5 then check
  else if Exact.Qlt_bool percentAway 0 then uarr
  else darr.

(** ** Concrete values used in the examples *)

(** The double nearest to a price given in cents, which is what
    [parseFloat] and [Number] return for its decimal notation. *)
Definition dollars (cents : Z) : Binary64.number :=
  PrimFloat.div (Binary64.of_Z cents) (Binary64.of_Z 100).

(** The same price as a rational. *)
Definition exactDollars (cents : Z) : Exact.number :=
  Exact.Fin (inject_Z cents / 100).

(** A session at the sentinel with a streak of three in the statistics:
    what [loadFromStorage] builds when the ['state'] entry is missing and
    the ['stats'] entry is there. *)
Definition unsetWithStreak : AppState Exact.number :=
  AppState.mk false 1 5 (Exact.Fin 100) DEFAULT_GAME_STATE
    {| numGames := 3; numWins := 3; winsInNum := [3; 0; 0; 0; 0; 0];
       currentStreak := 3; maxStreak := 3 |}.

(** Today's puzzle is won in daily mode, visited in archive mode, and won
    again in daily mode. *)
Definition winTodayTwice : list (Operation Exact.number) :=
  [ Reconcile false 5; SetProductData (Exact.Fin 100);
    RecordGuess (Exact.Fin 100);
    Reconcile true 5;
    Reconcile false 5; RecordGuess (Exact.Fin 100) ].

(** Two days of daily play: a win on the second guess, then a loss after six
    far guesses. *)
Definition twoDays : list (Operation Exact.number) :=
  [ Reconcile false 5; SetProductData (Exact.Fin 100);
    RecordGuess (Exact.Fin 50); RecordGuess (Exact.Fin 100);
    Reconcile false 6; SetProductData (Exact.Fin 20);
    RecordGuess (Exact.Fin 1); RecordGuess (Exact.Fin 2);
    RecordGuess (Exact.Fin 3); RecordGuess (Exact.Fin 4);
    RecordGuess (Exact.Fin 5); RecordGuess (Exact.Fin 6) ].

(** ** The rest of the state manager: mode, selection and all its calls *)

Section ManagerCalls.
Context {num : Type} {NUM : JSNumber num}.

(** [calculateGameNumber()]; [today] is what [dateUtils.getGameNumber()]
    returns at the time of the call. *)
Definition calculateGameNumber (today : Z) (st : AppState num) : AppState num :=
  AppState.mk (AppState.isArchiveMode st) (AppState.selectedGameNumber st)
    (if AppState.isArchiveMode st then AppState.selectedGameNumber st else today)
    (AppState.productPrice st) (AppState.gameState st) (AppState.userStats st).

(** [toggleArchiveMode()] *)
Definition toggleArchiveMode (today : Z) (st : AppState num) : AppState num :=
  let isArchiveMode := negb (AppState.isArchiveMode st) in
  AppState.mk isArchiveMode (AppState.selectedGameNumber st)
    (if isArchiveMode then AppState.selectedGameNumber st else today)
    (AppState.productPrice st) (AppState.gameState st) (AppState.userStats st).

(** [setSelectedGameNumber(gameNumber)] *)
Definition setSelectedGameNumber (gameNumber : Z) (st : AppState num)
  : AppState num :=
  AppState.mk (AppState.isArchiveMode st) gameNumber
    (if AppState.isArchiveMode st then gameNumber else AppState.gameNumber st)
    (AppState.productPrice st) (AppState.gameState st) (AppState.userStats st).

End ManagerCalls.

(** The calls that change the state of the manager after its construction,
    as the game module makes them. *)
Inductive ManagerCall (num : Type) : Type :=
| CallToggleArchiveMode (today : Z)
| CallSetSelectedGameNumber (gameNumber : Z)
| CallSetProductData (price : num)
| CallInitializeGame
| CallAddGuess (g : Guess num)
| CallSetGameWon
| CallSetGameLost
| CallProcessGuess (value : num).
Arguments CallToggleArchiveMode {num} _.
Arguments CallSetSelectedGameNumber {num} _.
Arguments CallSetProductData {num} _.
Arguments CallInitializeGame {num}.
Arguments CallAddGuess {num} _.
Arguments CallSetGameWon {num}.
Arguments CallSetGameLost {num}.
Arguments CallProcessGuess {num} _.

Section ManagerTraces.
Context {num : Type} {NUM : JSNumber num}.

Definition call (st : AppState num) (c : ManagerCall num) : AppState num :=
  match c with
  | CallToggleArchiveMode today => toggleArchiveMode today st
  | CallSetSelectedGameNumber n => setSelectedGameNumber n st
  | CallSetProductData price => setProductData price st
  | CallInitializeGame => initializeGame st
  | CallAddGuess g => addGuess g st
  | CallSetGameWon => setGameWon st
  | CallSetGameLost => setGameLost st
  | CallProcessGuess value => fst (processValidGuess value st)
  end.

Definition callAll (l : list (ManagerCall num)) (st : AppState num)
  : AppState num :=
  fold_left call l st.

(** The calls a player causes: [addGuess], [setGameWon] and [setGameLost]
    are reached through [processGuess] only. *)
Definition playerCall (c : ManagerCall num) : bool :=
  match c with
  | CallAddGuess _ | CallSetGameWon | CallSetGameLost => false
  | _ => true
  end.

(** In archive mode the puzzle played is the selected one. *)
Definition archiveConsistent (st : AppState num) : Prop :=
  AppState.isArchiveMode st = true ->
  AppState.gameNumber st = AppState.selectedGameNumber st.

(** Whether a guess is a winning one. *)
Definition isWin (g : Guess num) : bool :=
  GuessCloseness_eqb (closeness g) CSS_CLASSES.WIN.

(** No guess but the last is a win, and the last one is a win exactly when
    [won] says so (an empty list is not won). *)
Fixpoint winOnlyLast (l : list (Guess num)) (won : bool) : bool :=
  match l with
  | [] => negb won
  | g :: rest =>
      match rest with
      | [] => Bool.eqb (isWin g) won
      | _ => negb (isWin g) && winOnlyLast rest won
      end
  end.

(** The check mark goes with the winning closeness and with no other. *)
Definition directionMatches (g : Guess num) : bool :=
  Bool.eqb (isWin g)
    (match direction g with check => true | _ => false end).

(** A session as the game produces it: at most [MAX_GUESSES] guesses, the
    game is won exactly when the last guess is a win, and no guess follows
    a win. *)
Definition sessionWellFormed (gs : GameState num) : bool :=
  (Z.of_nat (length (guesses gs)) <=? GAME_CONFIG.MAX_GUESSES)
  && winOnlyLast (guesses gs) (hasWon gs)
  && forallb directionMatches (guesses gs).

End ManagerTraces.

(** The array of wins that [setGameWon] builds from [wins] when the session
    holds [guessCount] guesses. *)
Definition winsAfter (wins : list Z) (guessCount : nat) : list Z :=
  let guessIndex := Z.of_nat guessCount - 1 in
  if (0 <=? guessIndex) && (guessIndex <? Z.of_nat (length wins))
  then <[Z.to_nat guessIndex :=
           or_zero (default 0 (wins !! Z.to_nat guessIndex)) + 1]> wins
  else wins.

(** The sum of the entries of [winsInNum]. *)
Definition sumZ (l : list Z) : Z := fold_right Z.add 0 l.

(** Statistics that add up: six counters of wins by number of guesses, none
    negative, whose sum is [numWins]; streaks between 0 and [numWins], the
    current one not above the maximum; and no negative number of games. *)
Definition statsAccounted (stats : UserStats) : Prop :=
  length (winsInNum stats) = 6%nat
  /\ Forall (fun w => 0 <= w) (winsInNum stats)
  /\ sumZ (winsInNum stats) = numWins stats
  /\ 0 <= currentStreak stats
  /\ currentStreak stats <= maxStreak stats
  /\ maxStreak stats <= numWins stats
  /\ 0 <= numGames stats.

(** No counter of the statistics went down, [currentStreak] apart. *)
Definition statsGrew (old new : UserStats) : Prop :=
  numGames old <= numGames new
  /\ numWins old <= numWins new
  /\ maxStreak old <= maxStreak new
  /\ Forall2 Z.le (winsInNum old) (winsInNum new).

(** ** The page load: [localStorage], the constructor and [startGame] *)

(** The four entries of [localStorage] that the manager reads, as
    [JSON.parse] returns them; [None] is an absent entry.  The manager
    writes a boolean under ['archiveMode'] and reads a string there as well;
    it writes a number under ['selectedGameNumber'] and whole objects under
    ['state'] and ['stats'], which it reads back key by key. *)
Record Storage (num : Type) : Type := mkStorage {
  stored_archiveMode : option (bool + string);
  stored_selectedGameNumber : option Z;
  stored_state : option (PartialGameState num);
  stored_stats : option PartialUserStats
}.
Arguments mkStorage {num} _ _ _ _.
Arguments stored_archiveMode {num} _.
Arguments stored_selectedGameNumber {num} _.
Arguments stored_state {num} _.
Arguments stored_stats {num} _.

Section PageLoad.
Context {num : Type} {NUM : JSNumber num}.

(** [loadFromStorage()], on the state the constructor has just built
    ([gameNumber] 1, [productPrice] 0).  [parseInt] of a stored integer is
    that integer ([String] prints integers below [10^21] in full), and
    [|| 1] replaces [0]; an absent entry reads as ["1"]. *)
Definition loadFromStorage (storage : Storage num) : AppState num :=
  let isArchiveMode :=
    match stored_archiveMode storage with
    | Some (inr archiveModeValue) => String.eqb archiveModeValue "true"
    | Some (inl archiveModeValue) => archiveModeValue
    | None => false
    end in
  let selectedGameNumber :=
    match stored_selectedGameNumber storage with
    | Some n => if n =? 0 then 1 else n
    | None => 1
    end in
  let savedGameState :=
    default (mkPartialGameState None None None) (stored_state storage) in
  let savedUserStats :=
    default (mkPartialUserStats None None None None None)
      (stored_stats storage) in
  AppState.mk isArchiveMode selectedGameNumber 1 (num_of_Z 0)
    {| gameNumber :=
         default (gameNumber (@DEFAULT_GAME_STATE num))
           (new_gameNumber savedGameState);
       guesses := default [] (new_guesses savedGameState);
       hasWon :=
         default (hasWon (@DEFAULT_GAME_STATE num)) (new_hasWon savedGameState) |}
    {| numGames :=
         default (numGames DEFAULT_USER_STATS) (new_numGames savedUserStats);
       numWins :=
         default (numWins DEFAULT_USER_STATS) (new_numWins savedUserStats);
       winsInNum :=
         default (winsInNum DEFAULT_USER_STATS) (new_winsInNum savedUserStats);
       currentStreak :=
         default (currentStreak DEFAULT_USER_STATS)
           (new_currentStreak savedUserStats);
       maxStreak :=
         default (maxStreak DEFAULT_USER_STATS) (new_maxStreak savedUserStats) |}.

(** The constructor: [init()] is [loadFromStorage()] followed by
    [calculateGameNumber()]. *)
Definition init (today : Z) (storage : Storage num) : AppState num :=
  calculateGameNumber today (loadFromStorage storage).

(** [gameInitializer.startGame()], which [App.init] calls when the page has
    loaded; [today] is what [dateUtils.getGameNumber()] returns.
    [games gameNumber] is the price that [fetchGameData] finds and accepts
    for a game number in [games.json] (which is not part of the sources)
    and hands to [setProductData], [None] when it throws: the error is
    caught and [initializeGame] is not reached.  [displayGame] and
    [setupEventListeners] only touch the page. *)
Definition startGame (games : Z -> option num) (today : Z) (st : AppState num)
  : AppState num :=
  let isArchiveMode := AppState.isArchiveMode st in
  let selectedGameNumber := AppState.selectedGameNumber st in
  let gameNumber := if isArchiveMode then selectedGameNumber else today in
  match games gameNumber with
  | Some price => initializeGame (setProductData price st)
  | None => st
  end.

(** What [localStorage] holds for the state [st]: [persist] writes each of
    the four entries whenever [toggleArchiveMode], [setSelectedGameNumber],
    [updateGameState] or [updateUserStats] changes it, and nothing else
    changes them ([localStorage] is taken to accept every write). *)
Definition persisted (st : AppState num) : Storage num :=
  {| stored_archiveMode := Some (inl (AppState.isArchiveMode st));
     stored_selectedGameNumber := Some (AppState.selectedGameNumber st);
     stored_state :=
       Some {| new_gameNumber := Some (gameNumber (AppState.gameState st));
               new_guesses := Some (guesses (AppState.gameState st));
               new_hasWon := Some (hasWon (AppState.gameState st)) |};
     stored_stats :=
       Some {| new_numGames := Some (numGames (AppState.userStats st));
               new_numWins := Some (numWins (AppState.userStats st));
               new_winsInNum := Some (winsInNum (AppState.userStats st));
               new_currentStreak := Some (currentStreak (AppState.userStats st));
               new_maxStreak := Some (maxStreak (AppState.userStats st)) |} |}.

(** [location.reload()]: the page is loaded again, so the manager is built
    anew from [localStorage] and the game is started; [today] is what
    [dateUtils.getGameNumber()] returns during the load. *)
Definition reload (games : Z -> option num) (today : Z) (st : AppState num)
  : AppState num :=
  startGame games today (init today (persisted st)).

End PageLoad.

(** ** Archive navigation and the calendar (game module) *)

Section ArchiveNavigation.
Context {num : Type} {NUM : JSNumber num}.

(** Whether a number counts as true in a condition: every number but [0]
    and [NaN]. *)
Definition truthy (v : num) : bool :=
  negb (num_isNaN v || num_eqb v (num_of_Z 0)).

(** [gameInitializer.navigateArchiveGame(direction)]; [today] is what
    [dateUtils.getGameNumber()] returns, [games] what [games.json] holds.
    The number handed to [setSelectedGameNumber] is the [value] of the
    validation, which is the number that was validated.  A successful step
    ends with the reload of the page. *)
Definition navigateArchiveGame (games : Z -> option num) (today direction : Z)
    (st : AppState num) : AppState num :=
  let currentGameNumber := AppState.selectedGameNumber st in
  let newGameNumber := currentGameNumber + direction in
  let maxGameNumber := today in
  match validateGameNumber (inl (num_of_Z newGameNumber))
          (num_of_Z maxGameNumber) with
  | Valid value _ =>
      if truthy value
      then reload games today (setSelectedGameNumber newGameNumber st)
      else st
  | Invalid _ => st
  end.

(** [gameInitializer.navigateToToday()] *)
Definition navigateToToday (games : Z -> option num) (today : Z)
    (st : AppState num) : AppState num :=
  reload games today (setSelectedGameNumber today st).

(** [gameInitializer.toggleMode()] *)
Definition toggleMode (games : Z -> option num) (today : Z)
    (st : AppState num) : AppState num :=
  reload games today (toggleArchiveMode today st).

(** The [disabled] flags that [addArchiveNavigation] gives to the buttons
    "Previous Day" and "Next Day". *)
Definition prevDisabled (st : AppState num) : bool :=
  AppState.selectedGameNumber st <=? 1.

Definition nextDisabled (today : Z) (st : AppState num) : bool :=
  today <=? AppState.selectedGameNumber st.


End ArchiveNavigation.

Module calendar.

(** [modalManager.dateToGameNumber(date)], for the timestamp of [date]; its
    start date is [new Date('09/21/2023')] again. *)
Definition dateToGameNumber (tzOffset date : Z) : Z :=
  let timeDifference := date - GAME_CONFIG.COSTCODLE_START_DATE tzOffset in
  Math_ceil_div timeDifference dateUtils.MS_PER_DAY.

(** The date that [dateUtils.getDateForGameNumber(gameNum)] puts into
    words: [targetDate], the start date moved by [gameNum - 1] days with
    [setDate], as a timestamp.  [setDate] moves the local calendar date; in
    a zone with a constant offset that is a multiple of 24 hours. *)
Definition targetDate (tzOffset gameNum : Z) : Z :=
  GAME_CONFIG.COSTCODLE_START_DATE tzOffset + (gameNum - 1) * dateUtils.MS_PER_DAY.

(** The date [new Date(year, month, day)] of a cell of the calendar:
    midnight, local time, of the calendar day number [day] (counted in days
    since the Unix epoch). *)
Definition cellDate (tzOffset day : Z) : Z :=
  day * dateUtils.MS_PER_DAY + tzOffset * 60000.

(** What [renderCalendarMonth] attaches to the cell of a day: the game number
    a click selects, and whether the cell is disabled. *)
Definition cellGameNumber (tzOffset day : Z) : Z :=
  dateToGameNumber tzOffset (cellDate tzOffset day).

Definition cellDisabled (tzOffset now day : Z) : bool :=
  let gameNumber := cellGameNumber tzOffset day in
  let todayGameNumber := dateUtils.getGameNumber tzOffset now in
  todayGameNumber <? gameNumber.

End calendar.

Section CalendarSelection.
Context {num : Type} {NUM : JSNumber num}.



End CalendarSelection.

(** ** Numbers as text *)

Definition digitChar (d : Z) : ascii := ascii_of_nat (Z.to_nat d + 48).

(** The decimal digits of a natural number in front of [rest]; [fuel]
    bounds the number of digits. *)
Fixpoint printDigits (fuel : nat) (n : Z) (rest : string) : string :=
  match fuel with
  | O => rest
  | S fuel' =>
      let rest' := String (digitChar (n mod 10)) rest in
      if n / 10 =? 0 then rest' else printDigits fuel' (n / 10) rest'
  end.

(** The text of an integer in a template literal ([`${n}`]), for
    [|n| < 10^21]: its decimal digits, after a minus sign when negative. *)
Definition integerToString (n : Z) : string :=
  let digits := printDigits (S (Z.to_nat (Z.log2 (Z.abs n)))) (Z.abs n) EmptyString in
  if n <? 0 then String "-" digits else digits.

Module relativeTime.

(** [dateUtils.formatRelativeTime(date)], with the clock reading [now] as
    an argument.  The three divisions are followed by [Math.floor]; the
    quotients of the code are doubles, whose floor is the exact one for
    differences below [2^53]. *)
Definition formatRelativeTime (now date : Z) : string :=
  let diffInMinutes := (now - date) / (1000 * 60) in
  if diffInMinutes <? 1 then "just now"
  else if diffInMinutes <? 60 then
    integerToString diffInMinutes ++ " minute"
      ++ (if 1 <? diffInMinutes then "s" else EmptyString) ++ " ago"
  else
    let diffInHours := diffInMinutes / 60 in
    if diffInHours <? 24 then
      integerToString diffInHours ++ " hour"
        ++ (if 1 <? diffInHours then "s" else EmptyString) ++ " ago"
    else
      let diffInDays := diffInHours / 24 in
      integerToString diffInDays ++ " day"
        ++ (if 1 <? diffInDays then "s" else EmptyString) ++ " ago".

End relativeTime.

(** ** The validation of a price (module [utils]) *)

(** What the validation needs beyond arithmetic: the number a decimal
    notation denotes, and the text of a number with two decimals. *)
Class JSNumberText (num : Type) : Type := {
  (** The number [parseFloat] returns for the digits of [mantissa] with the
      point before the last [decimals] of them; also the value of such a
      literal. *)
  num_of_decimal : Z -> nat -> num;
  (** [x.toFixed(2)], for [|x| < 10^21]. *)
  num_toFixed2 : num -> string
}.

(** The two digits of cents. *)
Definition twoDigits (n : Z) : string :=
  String (digitChar (n / 10 mod 10)) (String (digitChar (n mod 10)) EmptyString).

(** [toFixed(2)] of a rational number: the nearest multiple of a hundredth,
    the larger one in a tie, written with its sign. *)
Definition toFixed2_Q (negative : bool) (magnitude : Q) : string :=
  let n := Qfloor (magnitude * 100 + (1 # 2))%Q in
  let text :=
    (printDigits (S (Z.to_nat (Z.log2 (n / 100)))) (n / 100) EmptyString
     ++ "." ++ twoDigits n)%string in
  if negative then String "-" text else text.

#[global] Instance Exact_JSNumberText : JSNumberText Exact.number := {
  num_of_decimal mantissa decimals :=
    Exact.Fin (inject_Z mantissa / inject_Z (10 ^ Z.of_nat decimals))%Q;
  num_toFixed2 x :=
    match x with
    | Exact.NaN => "NaN"%string
    | Exact.Inf negative => if negative then "-Infinity" else "Infinity"
    | Exact.Fin q => toFixed2_Q (Exact.Qneg q) (Qabs q)
    end%string
}.

(** The exact value of a finite double. *)
Definition Binary64_magnitude (x : Binary64.number) : Q :=
  match Prim2SF x with
  | S754_finite _ m e =>
      if 0 <=? e then inject_Z (Zpos m * 2 ^ e)
      else (inject_Z (Zpos m) / inject_Z (2 ^ (- e)))%Q
  | _ => 0
  end.

#[global] Instance Binary64_JSNumberText : JSNumberText Binary64.number := {
  (** The double nearest to the quotient, ties to even. *)
  num_of_decimal mantissa decimals :=
    match mantissa with
    | Zpos m =>
        SF2Prim (SFdiv prec emax (S754_finite false m 0)
                   (S754_finite false (Z.to_pos (10 ^ Z.of_nat decimals)) 0))
    | Zneg m =>
        SF2Prim (SFdiv prec emax (S754_finite true m 0)
                   (S754_finite false (Z.to_pos (10 ^ Z.of_nat decimals)) 0))
    | Z0 => PrimFloat.zero
    end;
  num_toFixed2 x :=
    match Prim2SF x with
    | S754_nan => "NaN"%string
    | S754_infinity negative => if negative then "-Infinity" else "Infinity"
    | S754_zero negative => if negative then "-0.00" else "0.00"
    | S754_finite negative _ _ => toFixed2_Q negative (Binary64_magnitude x)
    end%string
}.

Module priceText.

(** [/[$,\s]/], among the ASCII characters. *)
Definition isSeparator (c : ascii) : bool :=
  Ascii.eqb c "$" || Ascii.eqb c "," || isStrWhiteSpaceChar c.

(** [s.replace(/[$,\s]/g, '')] *)
Fixpoint removeSeparators (s : string) : string :=
  match s with
  | String c rest =>
      if isSeparator c then removeSeparators rest
      else String c (removeSeparators rest)
  | EmptyString => EmptyString
  end.

(** [s.trim()]: white space dropped at both ends. *)
Fixpoint trimEnd (s : string) : string :=
  match s with
  | String c rest =>
      match trimEnd rest with
      | EmptyString => if isStrWhiteSpaceChar c then EmptyString
                       else String c EmptyString
      | rest' => String c rest'
      end
  | EmptyString => EmptyString
  end.

Definition trim (s : string) : string := trimEnd (skipWhiteSpace s).

(** The digits a string starts with, and what follows them. *)
Fixpoint takeDigits (s : string) : string :=
  match s with
  | String c rest => if isDigit c then String c (takeDigits rest) else EmptyString
  | EmptyString => EmptyString
  end.

Fixpoint dropDigits (s : string) : string :=
  match s with
  | String c rest => if isDigit c then dropDigits rest else s
  | EmptyString => EmptyString
  end.

(** [/^\d*\.?\d*$/.test(s)] *)
Definition matchesNumber (s : string) : bool :=
  match dropDigits s with
  | EmptyString => true
  | String c rest => Ascii.eqb c "." && allDigits rest
  end.

(** The digits after the point, in a string that passed the test. *)
Definition fractionDigits (s : string) : string :=
  match dropDigits s with
  | EmptyString => EmptyString
  | String _ rest => rest
  end.

(** The number a string of digits denotes; [0] for the empty string. *)
Fixpoint digitsValue (s : string) (acc : Z) : Z :=
  match s with
  | String c rest => digitsValue rest (10 * acc + digitValue c)
  | EmptyString => acc
  end.

(** The text that is validated: [input.trim().replace(/[$,\s]/g, '')]. *)
Definition clean (input : string) : string := removeSeparators (trim input).

(** An ASCII character that is neither a digit, nor a point, nor one of the
    characters the cleaning removes; and whether a string has one. *)
Definition isForbidden (c : ascii) : bool :=
  (nat_of_ascii c <? 128)%nat
  && negb (isDigit c || Ascii.eqb c "." || isSeparator c).

Fixpoint hasForbidden (s : string) : bool :=
  match s with
  | String c rest => isForbidden c || hasForbidden rest
  | EmptyString => false
  end.

(** Whether a string has a character that the cleaning removes. *)
Fixpoint hasSeparator (s : string) : bool :=
  match s with
  | String c rest => isSeparator c || hasSeparator rest
  | EmptyString => false
  end.

(** An amount of cents written as a price with two decimals. *)
Definition centsText (cents : Z) : string :=
  (printDigits (S (Z.to_nat (Z.log2 (cents / 100)))) (cents / 100) EmptyString
   ++ "." ++ twoDigits cents)%string.

End priceText.

Section PriceValidation.
Context {num : Type} {NUM : JSNumber num} {TEXT : JSNumberText num}.

(** [parseFloat(s)] for a string that passed the test, which has neither
    sign, exponent nor letters: NaN without a digit, else the number the
    digits denote. *)
Definition parseFloat (s : string) : num :=
  let whole := priceText.takeDigits s in
  let fraction := priceText.fractionDigits s in
  match whole, fraction with
  | EmptyString, EmptyString => num_NaN
  | _, _ =>
      num_of_decimal (priceText.digitsValue (whole ++ fraction) 0)
        (String.length fraction)
  end.

(** [GAME_CONFIG.MIN_PRICE], [MAX_PRICE] and [MAX_DECIMAL_PLACES]. *)
Definition MIN_PRICE : num := num_of_decimal 1 2.
Definition MAX_PRICE : num := num_of_Z 10000.
Definition MAX_DECIMAL_PLACES : nat := 2.

(** [validation.validatePriceInput(input)] *)
Definition validatePriceInput (input : string) : ValidationResult num :=
  if String.eqb input EmptyString then Invalid INVALID_INPUT
  else
    let cleanInput := priceText.removeSeparators (priceText.trim input) in
    if negb (priceText.matchesNumber cleanInput) then Invalid INVALID_NUMBER
    else
      let numValue := parseFloat cleanInput in
      if num_isNaN numValue || num_ltb numValue MIN_PRICE
         || num_ltb MAX_PRICE numValue
      then Invalid PRICE_RANGE
      else if (MAX_DECIMAL_PLACES
               <? String.length (priceText.fractionDigits cleanInput))%nat
      then Invalid DECIMAL_PLACES
      else Valid numValue (Some (num_toFixed2 numValue)).

End PriceValidation.

(** ** A session of play through the page *)

(** [localStorage] before the first visit. *)
Definition emptyStorage {num : Type} : Storage num :=
  mkStorage None None None None.

(** A [games.json] in which every puzzle costs $100.00. *)
Definition hundredDollarGames : Z -> option Exact.number :=
  fun _ => Some (exactDollars 10000).

(** The day of puzzle 5.  First visit of the page; the guess "100" wins.
    The mode is switched to the archive and the "Today" button is pressed
    there; the mode is switched back to the daily game and "100" is guessed
    once more. *)
Definition winTodayTwiceByPlay : AppState Exact.number :=
  let games := hundredDollarGames in
  let guess st := fst (processGuess validatePriceInput "100" st) in
  let st := startGame games 5 (init 5 emptyStorage) in
  let st := guess st in
  let st := toggleMode games 5 st in
  let st := navigateToToday games 5 st in
  let st := toggleMode games 5 st in
  guess st.

(** * Properties *)

(** ** The computed properties [canGuess] and [gameComplete] *)

(** C10. For every game state [canGuess] and [gameComplete] are exact
    complements: [canGuess] is true if and only if [gameComplete] is false,
    and [canGuess] holds exactly when [hasWon] is false and fewer than
    [MAX_GUESSES] (6) guesses were made. *)
Theorem canGuess_complements_gameComplete :
  forall (num : Type) (st : AppState num),
    canGuess st = negb (gameComplete st) /\
    (canGuess st = true <-> gameComplete st = false) /\
    (canGuess st = true <->
       hasWon (AppState.gameState st) = false /\
       (length (guesses (AppState.gameState st)) < 6)%nat).
Proof.
  intros num st. unfold canGuess, gameComplete, GAME_CONFIG.MAX_GUESSES.
  destruct (hasWon (AppState.gameState st));
    destruct (Z.ltb_spec (Z.of_nat (length (guesses (AppState.gameState st)))) 6);
    destruct (Z.leb_spec 6 (Z.of_nat (length (guesses (AppState.gameState st)))));
    simpl; repeat split; intros; try congruence; try lia;
    match goal with H : _ /\ _ |- _ => destruct H end; try congruence; lia.
Qed.

(** ** Reconciliation in daily mode *)

Lemma or_zero_id : forall x : Z, or_zero x = x.
Proof. intros x. unfold or_zero. destruct (Z.eqb_spec x 0); congruence. Qed.

(** C7. Reconciling in daily mode for the puzzle the stored session already
    belongs to changes neither the session nor the statistics, so doing it
    twice gives the same state as doing it once: [numGames] is not
    incremented a second time and the guesses made so far are kept. *)
Theorem reconcile_daily_current_idempotent :
  forall (num : Type) (st : AppState num) (requested : Z),
    gameNumber (AppState.gameState st) = requested ->
    reconcile false requested (reconcile false requested st)
      = reconcile false requested st /\
    AppState.gameState (reconcile false requested st) = AppState.gameState st /\
    AppState.userStats (reconcile false requested st) = AppState.userStats st.
Proof.
  intros num st requested Hcur.
  assert (Hone : reconcile false requested st
                 = AppState.mk false (AppState.selectedGameNumber st) requested
                     (AppState.productPrice st) (AppState.gameState st)
                     (AppState.userStats st)).
  { unfold reconcile, initializeGame. cbn. rewrite Hcur, Z.eqb_refl. reflexivity. }
  rewrite Hone. repeat split.
  unfold reconcile, initializeGame. cbn. rewrite Hcur, Z.eqb_refl. reflexivity.
Qed.

Lemma reconcile_daily_current_idempotent_witness :
  let st := performAll twoDays (initialState 5) in
  gameNumber (AppState.gameState st) = 6 /\
  reconcile false 6 (reconcile false 6 st) = reconcile false 6 st.
Proof.
  split; [reflexivity|].
  apply (reconcile_daily_current_idempotent Exact.number
           (performAll twoDays (initialState 5)) 6).
  reflexivity.
Defined.

(** C2 does not hold as stated: a stored session at the sentinel (no puzzle
    played yet) with [hasWon = false] loses the current streak too. *)
Lemma reconcile_resets_streak_of_unset_session :
  gameNumber (AppState.gameState unsetWithStreak)
    = gameNumber (@DEFAULT_GAME_STATE Exact.number) /\
  hasWon (AppState.gameState unsetWithStreak) = false /\
  gameNumber (AppState.gameState unsetWithStreak) <> 5 /\
  currentStreak (AppState.userStats unsetWithStreak) = 3 /\
  currentStreak (AppState.userStats (reconcile false 5 unsetWithStreak)) = 0 /\
  currentStreak (AppState.userStats (reconcile false 5 unsetWithStreak))
    <> (if negb (hasWon (AppState.gameState unsetWithStreak))
           && negb (gameNumber (AppState.gameState unsetWithStreak) =? -1)
        then 0
        else currentStreak (AppState.userStats unsetWithStreak)).
Proof. cbv. repeat split; congruence. Qed.

(** C2, amended. In daily mode, when the stored session belongs to another
    puzzle than the requested one, [currentStreak] is reset to 0 exactly
    when the stored session has [hasWon = false], whether or not its game
    number is the sentinel; the session becomes
    [{ gameNumber: requested, guesses: [], hasWon: false }]; [numGames]
    grows by exactly 1 and the other statistics are kept. *)
Theorem reconcile_daily_stale :
  forall (num : Type) (st : AppState num) (requested : Z),
    gameNumber (AppState.gameState st) <> requested ->
    let st' := reconcile false requested st in
    currentStreak (AppState.userStats st')
      = (if hasWon (AppState.gameState st)
         then currentStreak (AppState.userStats st) else 0) /\
    AppState.gameState st'
      = {| gameNumber := requested; guesses := []; hasWon := false |} /\
    numGames (AppState.userStats st') = numGames (AppState.userStats st) + 1 /\
    numWins (AppState.userStats st') = numWins (AppState.userStats st) /\
    winsInNum (AppState.userStats st') = winsInNum (AppState.userStats st) /\
    maxStreak (AppState.userStats st') = maxStreak (AppState.userStats st).
Proof.
  intros num st requested Hstale. unfold reconcile, initializeGame. cbn.
  destruct (Z.eqb_spec (gameNumber (AppState.gameState st)) requested) as [E|_];
    [contradiction|].
  cbn. destruct (hasWon (AppState.gameState st)); cbn; repeat split.
Qed.

Lemma reconcile_daily_stale_witness :
  gameNumber (AppState.gameState unsetWithStreak) <> 5 /\
  numGames (AppState.userStats (reconcile false 5 unsetWithStreak)) = 3 + 1.
Proof.
  assert (H : gameNumber (AppState.gameState unsetWithStreak) <> 5)
    by (cbn; lia).
  split; [exact H|].
  exact (proj1 (proj2 (proj2
           (reconcile_daily_stale Exact.number unsetWithStreak 5 H)))).
Defined.

(** ** Archive mode *)

Section ArchiveMode.
Context {num : Type} {NUM : JSNumber num}.

Lemma processValidGuess_isArchiveMode (value : num) (st : AppState num) :
  AppState.isArchiveMode (fst (processValidGuess value st))
    = AppState.isArchiveMode st.
Proof.
  unfold processValidGuess, handleGameWon, handleGameLost, setGameWon,
    setGameLost.
  destruct (canGuess st); cbn; [|reflexivity].
  destruct (GuessCloseness_eqb _ _); cbn.
  - destruct (AppState.isArchiveMode st) eqn:E; cbn; rewrite ?E; reflexivity.
  - destruct (_ <=? _); cbn; [|reflexivity].
    destruct (AppState.isArchiveMode st) eqn:E; cbn; rewrite ?E; reflexivity.
Qed.

Lemma processValidGuess_archive_userStats (value : num) (st : AppState num) :
  AppState.isArchiveMode st = true ->
  AppState.userStats (fst (processValidGuess value st)) = AppState.userStats st.
Proof.
  intros Harch.
  unfold processValidGuess, handleGameWon, handleGameLost, setGameWon,
    setGameLost.
  destruct (canGuess st); cbn; [|reflexivity].
  destruct (GuessCloseness_eqb _ _); cbn.
  - rewrite Harch. reflexivity.
  - destruct (_ <=? _); cbn; [|reflexivity]. rewrite Harch. reflexivity.
Qed.

Lemma archiveStep_frame (a : ArchiveStep num) (st : AppState num) :
  AppState.isArchiveMode st = true ->
  AppState.isArchiveMode (archiveStep st a) = true /\
  AppState.userStats (archiveStep st a) = AppState.userStats st.
Proof.
  intros Harch. destruct a; cbn.
  - split; reflexivity.
  - split; [exact Harch|reflexivity].
  - split; [exact Harch|reflexivity].
  - unfold setGameWon; cbn. rewrite Harch. cbn. split; [exact Harch|reflexivity].
  - unfold setGameLost. rewrite Harch. cbn. split; [exact Harch|reflexivity].
  - rewrite processValidGuess_isArchiveMode.
    split; [exact Harch|apply processValidGuess_archive_userStats, Harch].
Qed.

End ArchiveMode.

(** C3. In archive mode reconciliation always produces the fresh session
    [{ gameNumber: requested, guesses: [], hasWon: false }], whatever the
    stored session holds, and leaves the statistics alone; and no sequence
    of archive navigations, guesses, wins and losses changes any field of
    the statistics. *)
Theorem archive_mode_never_touches_stats :
  forall (num : Type) (NUM : JSNumber num) (st : AppState num),
    (forall requested : Z,
        AppState.gameState (reconcile true requested st)
          = {| gameNumber := requested; guesses := []; hasWon := false |} /\
        AppState.userStats (reconcile true requested st) = AppState.userStats st) /\
    (forall l : list (ArchiveStep num),
        AppState.isArchiveMode st = true ->
        AppState.userStats (archiveSteps l st) = AppState.userStats st).
Proof.
  intros num NUM st. split.
  - intros requested. split; reflexivity.
  - intros l. revert st. unfold archiveSteps.
    induction l as [|a l IH]; intros st Harch; cbn.
    + reflexivity.
    + destruct (archiveStep_frame a st Harch) as [Harch' Hstats].
      rewrite (IH _ Harch'). exact Hstats.
Qed.

Lemma archive_mode_never_touches_stats_witness :
  let st := reconcile true 3 (performAll twoDays (initialState 5)) in
  let l := [ Price (Exact.Fin 100); Guessed (Exact.Fin 100); Won;
             Navigate 4; Append (mkGuess (Exact.Fin 1) guess_far uarr);
             Guessed (Exact.Fin 2); Lost ] in
  AppState.isArchiveMode st = true /\
  AppState.userStats (archiveSteps l st) = AppState.userStats st.
Proof.
  split; [reflexivity|].
  apply (proj2 (archive_mode_never_touches_stats Exact.number _
                  (reconcile true 3 (performAll twoDays (initialState 5))))).
  reflexivity.
Defined.

(** ** Recording a guess *)

Section RecordGuess.
Context {num : Type} {NUM : JSNumber num}.

Lemma canGuess_false_iff (st : AppState num) :
  canGuess st = false <->
  hasWon (AppState.gameState st) = true \/
  (6 <= length (guesses (AppState.gameState st)))%nat.
Proof.
  unfold canGuess, GAME_CONFIG.MAX_GUESSES.
  destruct (hasWon (AppState.gameState st));
    destruct (Z.ltb_spec (Z.of_nat (length (guesses (AppState.gameState st)))) 6);
    cbn; split; intros; auto; try congruence; try (right; lia).
  destruct H0; [congruence|lia].
Qed.

Lemma processValidGuess_rejected (value : num) (st : AppState num) :
  canGuess st = false -> processValidGuess value st = (st, false).
Proof. intros H. unfold processValidGuess. rewrite H. reflexivity. Qed.

Lemma processValidGuess_guesses (value : num) (st : AppState num) :
  canGuess st = true ->
  snd (processValidGuess value st) = true /\
  guesses (AppState.gameState (fst (processValidGuess value st)))
    = guesses (AppState.gameState st) ++ [createGuessObject value st].
Proof.
  intros H. unfold processValidGuess. rewrite H. cbn. split; [reflexivity|].
  unfold handleGameWon, handleGameLost, setGameWon, setGameLost.
  destruct (GuessCloseness_eqb _ _); cbn.
  - destruct (AppState.isArchiveMode st) eqn:E; cbn; rewrite ?E; reflexivity.
  - destruct (_ <=? _); cbn; [|reflexivity].
    destruct (AppState.isArchiveMode st) eqn:E; cbn; rewrite ?E; reflexivity.
Qed.

(** [processGuess] either leaves the state alone and returns [false], or
    behaves as [processValidGuess] on the value the validator extracted. *)
Lemma processGuess_cases (validatePriceInput : string -> ValidationResult num)
    (userInput : string) (st : AppState num) :
  processGuess validatePriceInput userInput st = (st, false) \/
  exists value formatted,
    validatePriceInput userInput = Valid value formatted /\
    processGuess validatePriceInput userInput st = processValidGuess value st.
Proof.
  unfold processGuess. destruct (String.eqb userInput EmptyString); [now left|].
  destruct (validatePriceInput userInput) as [e|value formatted]; [now left|].
  right. exists value, formatted. split; reflexivity.
Qed.

End RecordGuess.

(** C5. No guess is accepted once the game is won or six guesses were made:
    the call returns [false] and leaves the session and the statistics as
    they were.  Every accepted call appends exactly one guess, so the
    number of guesses grows by one per accepted call and never shrinks. *)
Theorem processGuess_append_only :
  forall (num : Type) (NUM : JSNumber num)
         (validatePriceInput : string -> ValidationResult num)
         (userInput : string) (st : AppState num),
    let r := processGuess validatePriceInput userInput st in
    (hasWon (AppState.gameState st) = true \/
     (6 <= length (guesses (AppState.gameState st)))%nat ->
       r = (st, false)) /\
    (snd r = false -> fst r = st) /\
    (snd r = true ->
       exists g, guesses (AppState.gameState (fst r))
                   = guesses (AppState.gameState st) ++ [g] /\
       length (guesses (AppState.gameState (fst r)))
         = S (length (guesses (AppState.gameState st)))) /\
    (length (guesses (AppState.gameState st))
       <= length (guesses (AppState.gameState (fst r))))%nat.
Proof.
  intros num NUM validatePriceInput userInput st r.
  assert (Hcases : r = (st, false) \/
            exists value, r = processValidGuess value st).
  { destruct (processGuess_cases validatePriceInput userInput st)
      as [H|(value & formatted & _ & H)]; [now left|right; now exists value]. }
  assert (Hacc : forall value, canGuess st = true ->
            exists g, guesses (AppState.gameState (fst (processValidGuess value st)))
                      = guesses (AppState.gameState st) ++ [g] /\
            length (guesses (AppState.gameState (fst (processValidGuess value st))))
              = S (length (guesses (AppState.gameState st)))).
  { intros value Hcan.
    destruct (processValidGuess_guesses value st Hcan) as [_ Hg].
    exists (createGuessObject value st). split; [exact Hg|].
    rewrite Hg, length_app. cbn. lia. }
  repeat split.
  - intros Hdone. apply canGuess_false_iff in Hdone.
    destruct Hcases as [H|[value H]]; [exact H|].
    rewrite H. apply processValidGuess_rejected, Hdone.
  - intros Hrej. destruct Hcases as [H|[value H]]; [now rewrite H|].
    rewrite H in *. destruct (canGuess st) eqn:Hcan.
    + destruct (processValidGuess_guesses value st Hcan) as [Hs _]. congruence.
    + now rewrite processValidGuess_rejected.
  - intros Hacc'. destruct Hcases as [H|[value H]];
      [rewrite H in Hacc'; discriminate|].
    rewrite H in *. destruct (canGuess st) eqn:Hcan.
    + apply Hacc. reflexivity.
    + rewrite processValidGuess_rejected in Hacc' by exact Hcan. discriminate.
  - destruct Hcases as [H|[value H]]; [now rewrite H|].
    rewrite H. destruct (canGuess st) eqn:Hcan.
    + destruct (Hacc value eq_refl) as (g & _ & Hlen). rewrite Hlen. lia.
    + now rewrite processValidGuess_rejected.
Qed.

Lemma processGuess_append_only_witness :
  let validate := fun _ : string => Valid (Exact.Fin 100) None in
  let won := performAll winTodayTwice (initialState 5) in
  let fresh := reconcile false 7 won in
  hasWon (AppState.gameState won) = true /\
  processGuess validate "100" won = (won, false) /\
  snd (processGuess validate "100" fresh) = true /\
  length (guesses (AppState.gameState (fst (processGuess validate "100" fresh))))
    = S (length (guesses (AppState.gameState fresh))).
Proof.
  pose (validate := fun _ : string => Valid (Exact.Fin 100) None).
  pose (won := performAll winTodayTwice (initialState 5)).
  pose (fresh := reconcile false 7 won).
  assert (Hwon : hasWon (AppState.gameState won) = true) by reflexivity.
  assert (Hok : snd (processGuess validate "100" fresh) = true) by reflexivity.
  split; [exact Hwon|]. split.
  - exact (proj1 (processGuess_append_only Exact.number _ validate "100" won)
             (or_introl Hwon)).
  - split; [exact Hok|].
    destruct (proj1 (proj2 (proj2
                (processGuess_append_only Exact.number _ validate "100" fresh)))
                Hok) as (g & _ & Hlen).
    exact Hlen.
Defined.

Section WinAndLoss.
Context {num : Type} {NUM : JSNumber num}.

Lemma GuessCloseness_eqb_eq (a b : GuessCloseness) :
  GuessCloseness_eqb a b = true <-> a = b.
Proof. destruct a, b; cbn; split; congruence. Qed.

Lemma canGuess_true (st : AppState num) :
  canGuess st = true ->
  hasWon (AppState.gameState st) = false /\
  (length (guesses (AppState.gameState st)) < 6)%nat.
Proof.
  unfold canGuess, GAME_CONFIG.MAX_GUESSES. intros H.
  apply andb_prop in H. destruct H as [Hlen Hwon].
  apply Z.ltb_lt in Hlen. apply negb_true_iff in Hwon. split; [exact Hwon|lia].
Qed.

(** The state after an accepted guess that wins. *)
Lemma processValidGuess_win (value : num) (st : AppState num) :
  canGuess st = true ->
  closeness (createGuessObject value st) = guess_win ->
  fst (processValidGuess value st)
    = setGameWon (addGuess (createGuessObject value st) st).
Proof.
  intros Hcan Hwin. unfold processValidGuess. rewrite Hcan. cbn -[createGuessObject].
  rewrite Hwin. reflexivity.
Qed.

(** The state after an accepted guess that does not win. *)
Lemma processValidGuess_no_win (value : num) (st : AppState num) :
  canGuess st = true ->
  closeness (createGuessObject value st) <> guess_win ->
  fst (processValidGuess value st)
    = if (6 <=? Z.of_nat (S (length (guesses (AppState.gameState st)))))
      then setGameLost (addGuess (createGuessObject value st) st)
      else addGuess (createGuessObject value st) st.
Proof.
  intros Hcan Hwin. unfold processValidGuess. rewrite Hcan. cbn -[createGuessObject].
  destruct (GuessCloseness_eqb _ _) eqn:E.
  - apply GuessCloseness_eqb_eq in E. contradiction.
  - rewrite length_app. cbn [length]. rewrite Nat.add_1_r. reflexivity.
Qed.

End WinAndLoss.

(** C4. When an accepted guess has closeness Win, [hasWon] becomes true,
    and in daily mode [numWins] grows by 1, [winsInNum] grows by 1 at the
    index of the winning guess (the number of guesses, that guess
    included, minus one), [currentStreak] grows by 1 and [maxStreak] becomes
    the maximum of its old value and the new [currentStreak].  When the
    guess is not a Win and is the sixth, in daily mode [currentStreak]
    becomes 0.  The statistics are those of the data model: [winsInNum] has
    [MAX_GUESSES] entries. *)
Theorem processGuess_win_and_loss :
  forall (num : Type) (NUM : JSNumber num) (value : num) (st : AppState num),
    canGuess st = true ->
    length (winsInNum (AppState.userStats st)) = 6%nat ->
    let g := createGuessObject value st in
    let st' := fst (processValidGuess value st) in
    let stats := AppState.userStats st in
    let stats' := AppState.userStats st' in
    let n := length (guesses (AppState.gameState st)) in
    guesses (AppState.gameState st') = guesses (AppState.gameState st) ++ [g] /\
    (closeness g = guess_win ->
       hasWon (AppState.gameState st') = true /\
       (AppState.isArchiveMode st = false ->
          numWins stats' = numWins stats + 1 /\
          (exists w, winsInNum stats !! n = Some w /\
                     winsInNum stats' = <[n := w + 1]> (winsInNum stats) /\
                     winsInNum stats' !! n = Some (w + 1)) /\
          currentStreak stats' = currentStreak stats + 1 /\
          maxStreak stats' = Z.max (maxStreak stats) (currentStreak stats') /\
          numGames stats' = numGames stats)) /\
    (closeness g <> guess_win ->
       length (guesses (AppState.gameState st')) = 6%nat ->
       hasWon (AppState.gameState st') = false /\
       (AppState.isArchiveMode st = false ->
          currentStreak stats' = 0 /\
          numGames stats' = numGames stats /\
          numWins stats' = numWins stats /\
          winsInNum stats' = winsInNum stats /\
          maxStreak stats' = maxStreak stats)).
Proof.
  intros num NUM value st Hcan Hlen g st' stats stats' n.
  destruct (canGuess_true st Hcan) as [Hnot Hn].
  destruct (processValidGuess_guesses value st Hcan) as [_ Hg].
  split; [exact Hg|]. split.
  - intros Hwin. subst st' stats'.
    rewrite (processValidGuess_win value st Hcan Hwin).
    unfold setGameWon. cbn.
    destruct (AppState.isArchiveMode st) eqn:Hmode; cbn;
      (split; [reflexivity|]); intros Hdaily; [discriminate|].
    rewrite length_app. cbn [length].
    replace (Z.of_nat (length (guesses (AppState.gameState st)) + 1) - 1)
      with (Z.of_nat n) by (subst n; lia).
    rewrite Nat2Z.id.
    destruct (Z.leb_spec 0 (Z.of_nat n)) as [_|]; [|lia].
    destruct (Z.ltb_spec (Z.of_nat n)
                (Z.of_nat (length (winsInNum (AppState.userStats st)))))
      as [_|Hge]; [|subst n; lia].
    cbn. subst stats.
    split; [reflexivity|]. split; [|split; [reflexivity|split; [lia|reflexivity]]].
    destruct (lookup_lt_is_Some_2 (winsInNum (AppState.userStats st)) n)
      as [w Hw]; [subst n; lia|].
    exists w. rewrite Hw. cbn. rewrite or_zero_id.
    split; [reflexivity|]. split; [reflexivity|].
    apply list_lookup_insert_eq. subst n; lia.
  - intros Hnowin Hsix. subst st' stats'.
    rewrite (processValidGuess_no_win value st Hcan Hnowin) in *.
    destruct (Z.leb_spec 6 (Z.of_nat (S (length (guesses (AppState.gameState st))))))
      as [Hfull|Hroom].
    + unfold setGameLost. cbn.
      destruct (AppState.isArchiveMode st) eqn:Hmode; cbn;
        (split; [exact Hnot|]); intros Hdaily; [discriminate|].
      repeat split.
    + cbn in Hsix. rewrite length_app in Hsix. cbn in Hsix. lia.
Qed.

Lemma processGuess_win_and_loss_witness :
  let st := setProductData (Exact.Fin 100) (reconcile false 5 (initialState 5)) in
  let stats' := AppState.userStats (fst (processValidGuess (Exact.Fin 95) st)) in
  canGuess st = true /\
  length (winsInNum (AppState.userStats st)) = 6%nat /\
  closeness (createGuessObject (Exact.Fin 95) st) = guess_win /\
  numWins stats' = 0 + 1 /\
  currentStreak stats' = 0 + 1.
Proof.
  pose (st := setProductData (Exact.Fin 100)
                (reconcile false 5 (@initialState Exact.number _ 5))).
  assert (Hcan : canGuess st = true) by reflexivity.
  assert (Hlen : length (winsInNum (AppState.userStats st)) = 6%nat)
    by reflexivity.
  assert (Hwin : closeness (createGuessObject (Exact.Fin 95) st) = guess_win)
    by reflexivity.
  destruct (processGuess_win_and_loss Exact.number _ (Exact.Fin 95) st Hcan Hlen)
    as (_ & Hw & _).
  destruct (Hw Hwin) as (_ & Hdaily).
  destruct (Hdaily eq_refl) as (Hwins & _ & Hstreak & _).
  repeat split; assumption.
Defined.

(** ** Invariants of the statistics *)

Section StatsInvariants.
Context {num : Type} {NUM : JSNumber num}.

(** What a validated guess does to the fields the invariants speak of. *)
Lemma processValidGuess_effect (value : num) (st : AppState num) :
  let st' := fst (processValidGuess value st) in
  let stats := AppState.userStats st in
  let stats' := AppState.userStats st' in
  AppState.isArchiveMode st' = AppState.isArchiveMode st /\
  gameNumber (AppState.gameState st') = gameNumber (AppState.gameState st) /\
  numGames stats' = numGames stats /\
  (st' = st \/
   (hasWon (AppState.gameState st) = false /\
    hasWon (AppState.gameState st') = true /\
    (if AppState.isArchiveMode st then stats' = stats
     else numWins stats' = numWins stats + 1 /\
          currentStreak stats' = currentStreak stats + 1 /\
          maxStreak stats' = Z.max (currentStreak stats + 1) (maxStreak stats))) \/
   (hasWon (AppState.gameState st) = false /\
    hasWon (AppState.gameState st') = false /\
    numWins stats' = numWins stats /\
    maxStreak stats' = maxStreak stats /\
    (currentStreak stats' = currentStreak stats \/ currentStreak stats' = 0))).
Proof.
  cbn zeta. split; [apply processValidGuess_isArchiveMode|].
  destruct (canGuess st) eqn:Hcan.
  2:{ rewrite processValidGuess_rejected by exact Hcan. cbn. repeat split; auto. }
  destruct (canGuess_true st Hcan) as [Hnot _].
  destruct (GuessCloseness_eqb (closeness (createGuessObject value st)) guess_win)
    eqn:Hwin.
  - apply GuessCloseness_eqb_eq in Hwin.
    rewrite (processValidGuess_win value st Hcan Hwin).
    unfold setGameWon. cbn -[createGuessObject].
    destruct (AppState.isArchiveMode st) eqn:Hmode; cbn -[createGuessObject];
      (split; [reflexivity|]); (split; [reflexivity|]); right; left;
      rewrite ?Hmode; repeat split; auto.
  - assert (Hno : closeness (createGuessObject value st) <> guess_win).
    { intros E. apply GuessCloseness_eqb_eq in E. congruence. }
    rewrite (processValidGuess_no_win value st Hcan Hno).
    destruct (6 <=? _).
    + unfold setGameLost. cbn -[createGuessObject].
      destruct (AppState.isArchiveMode st) eqn:Hmode; cbn -[createGuessObject];
        (split; [reflexivity|]); (split; [reflexivity|]); right; right; repeat split; auto.
    + cbn -[createGuessObject].
      (split; [reflexivity|]); (split; [reflexivity|]); right; right; repeat split; auto.
Qed.

(** What a page load does. *)
Lemma reconcile_effect (archive : bool) (requested : Z) (st : AppState num) :
  let st' := reconcile archive requested st in
  let stats := AppState.userStats st in
  let stats' := AppState.userStats st' in
  AppState.isArchiveMode st' = archive /\
  numWins stats' = numWins stats /\
  maxStreak stats' = maxStreak stats /\
  (currentStreak stats' = currentStreak stats \/ currentStreak stats' = 0) /\
  (if archive then numGames stats' = numGames stats
   else if gameNumber (AppState.gameState st) =? requested
        then numGames stats' = numGames stats /\
             AppState.gameState st' = AppState.gameState st
        else numGames stats' = numGames stats + 1 /\
             hasWon (AppState.gameState st') = false).
Proof.
  unfold reconcile, initializeGame. destruct archive; cbn.
  - repeat split; auto.
  - destruct (gameNumber (AppState.gameState st) =? requested); cbn.
    + repeat split; auto.
    + destruct (hasWon (AppState.gameState st)); cbn; repeat split; auto.
Qed.

Lemma perform_streakInvariant (op : Operation num) (st : AppState num) :
  streakInvariant st -> streakInvariant (perform st op).
Proof.
  unfold streakInvariant. intros [H0 Hmax]. destruct op as [archive r|price|value].
  - cbn [perform].
    destruct (reconcile_effect archive r st) as (_ & _ & Hm & Hc & _).
    rewrite Hm. destruct Hc as [Hc|Hc]; rewrite Hc; lia.
  - cbn. lia.
  - cbn [perform].
    destruct (processValidGuess_effect value st)
      as (_ & _ & _ & [E|[(_ & _ & Hw)|(_ & _ & _ & Hm & Hc)]]).
    + rewrite E. lia.
    + destruct (AppState.isArchiveMode st).
      * rewrite Hw. lia.
      * destruct Hw as (_ & Hc & Hm). rewrite Hc, Hm. lia.
    + rewrite Hm. destruct Hc as [Hc|Hc]; rewrite Hc; lia.
Qed.

Lemma perform_winsInvariant (op : Operation num) (st : AppState num)
    (opened : bool) :
  winsInvariant st opened ->
  match op with
  | RecordGuess _ => AppState.isArchiveMode st || opened = true
  | _ => True
  end ->
  winsInvariant (perform st op) (openedAfter st opened op).
Proof.
  unfold winsInvariant. intros [Hle Hopen] Hok.
  destruct op as [archive r|price|value].
  - cbn [perform openedAfter].
    destruct (reconcile_effect archive r st) as (Hmode & Hw & _ & _ & Hg).
    rewrite Hw, Hmode. destruct archive.
    + rewrite Hg. split; [lia|]. intros; discriminate.
    + destruct (gameNumber (AppState.gameState st) =? r).
      * destruct Hg as [Hg Hs]. rewrite Hg, Hs. split; [lia|].
        intros _ Ho Hnot.
        apply andb_prop in Ho. destruct Ho as [Ho Hwas].
        apply negb_true_iff in Hwas. apply Hopen; auto.
      * destruct Hg as [Hg Hs]. rewrite Hg. split; lia.
  - cbn. auto.
  - cbn [perform openedAfter].
    destruct (processValidGuess_effect value st)
      as (Hmode & _ & Hg & [E|[(Hnot & Hwon & Hw)|(Hnot & _ & Hw & _)]]).
    + rewrite E. auto.
    + rewrite Hg, Hmode. destruct (AppState.isArchiveMode st) eqn:Hwas.
      * rewrite Hw. split; [lia|]. intros; discriminate.
      * destruct Hw as (Hw & _). rewrite Hw. cbn in Hok.
        split; [apply Hopen; auto|]. intros _ _ Hc. congruence.
    + rewrite Hg, Hw, Hmode. split; [lia|]. intros Hd Ho _.
      apply Hopen; auto.
Qed.

End StatsInvariants.

Section Reachable.
Context {num : Type} {NUM : JSNumber num}.

Lemma performAll_streakInvariant (ops : list (Operation num)) :
  forall st : AppState num,
    streakInvariant st -> streakInvariant (performAll ops st).
Proof.
  unfold performAll. induction ops as [|op ops IH]; intros st Hinv; cbn.
  - exact Hinv.
  - apply IH, perform_streakInvariant, Hinv.
Qed.

Lemma performAll_winsInvariant (ops : list (Operation num)) :
  forall (st : AppState num) (opened : bool),
    winsInvariant st opened ->
    dailyGuessesCounted ops st opened = true ->
    numWins (AppState.userStats (performAll ops st))
      <= numGames (AppState.userStats (performAll ops st)).
Proof.
  unfold performAll. induction ops as [|op ops IH]; intros st opened Hinv Hok.
  - exact (proj1 Hinv).
  - cbn [dailyGuessesCounted] in Hok. apply andb_prop in Hok.
    destruct Hok as [Hop Hrest]. cbn [fold_left].
    apply (IH _ (openedAfter st opened op)); [|exact Hrest].
    apply perform_winsInvariant; [exact Hinv|].
    destruct op; [exact I|exact I|exact Hop].
Qed.

End Reachable.

(** C6. The code breaks the invariant.  Daily and archive play share the
    one stored session: today's puzzle is won in daily mode, opened again in
    archive mode (which clears the stored session under the same number)
    and then won a second time in daily mode, where [setGameWon] counts it
    again although [initializeGame] has not counted a new game.  Two wins
    stand against one game played. *)
Lemma more_wins_than_games :
  let stats := AppState.userStats (performAll winTodayTwice (initialState 5)) in
  numWins stats = 2 /\ numGames stats = 1 /\ ~ numWins stats <= numGames stats.
Proof. cbv. repeat split; congruence. Qed.

(** The same defect through the page, reloads included: on the day of
    puzzle 5 the player wins, switches to the archive, presses "Today",
    switches back and wins again.  The statistics then show two wins, a
    streak of two and one game played. *)
Lemma more_wins_than_games_by_play :
  let stats := AppState.userStats winTodayTwiceByPlay in
  AppState.isArchiveMode winTodayTwiceByPlay = false /\
  numWins stats = 2 /\ numGames stats = 1 /\
  currentStreak stats = 2 /\ winsInNum stats = [2; 0; 0; 0; 0; 0].
Proof. vm_compute. repeat split; reflexivity. Qed.

(** How far the defect reaches.  Every statistics value reached from the
    defaults by page loads, product changes and guesses, in either mode,
    has [currentStreak <= maxStreak].  The bound [numWins <= numGames] is
    lost only through a guess made in daily mode in a session that no daily
    page load has opened: the initial session, or a session left by archive
    mode under the number of today's puzzle. *)
Theorem stats_invariants :
  forall (num : Type) (NUM : JSNumber num) (today : Z)
         (ops : list (Operation num)),
    let stats := AppState.userStats (performAll ops (initialState today)) in
    currentStreak stats <= maxStreak stats /\
    (dailyGuessesCounted ops (initialState today) false = true ->
     numWins stats <= numGames stats).
Proof.
  intros num NUM today ops stats. split.
  - apply (performAll_streakInvariant ops (initialState today)).
    unfold streakInvariant. cbn. lia.
  - intros Hok.
    apply (performAll_winsInvariant ops (initialState today) false); [|exact Hok].
    unfold winsInvariant. cbn. split; [lia|]. intros; discriminate.
Qed.

Lemma stats_invariants_witness :
  let stats := AppState.userStats (performAll twoDays (initialState 5)) in
  dailyGuessesCounted twoDays (initialState 5) false = true /\
  numWins stats <= numGames stats.
Proof.
  assert (H : dailyGuessesCounted twoDays (@initialState Exact.number _ 5) false
              = true) by reflexivity.
  split; [exact H|].
  exact (proj2 (stats_invariants Exact.number _ 5 twoDays) H).
Defined.

(** ** The game number *)

Lemma Math_ceil_div_bounds (a b : Z) :
  0 < b -> b * (Math_ceil_div a b - 1) < a <= b * Math_ceil_div a b.
Proof.
  intros Hb. unfold Math_ceil_div.
  pose proof (Z.div_mod (- a) b ltac:(lia)) as Hdiv.
  pose proof (Z.mod_pos_bound (- a) b Hb) as Hmod. nia.
Qed.

Lemma Math_ceil_div_unique (a b n : Z) :
  0 < b -> b * (n - 1) < a <= b * n -> Math_ceil_div a b = n.
Proof.
  intros Hb Hn. pose proof (Math_ceil_div_bounds a b Hb) as Hc. nia.
Qed.

(** The ceiling is the floor plus one, except on multiples of the divisor. *)
Lemma Math_ceil_div_floor (a b : Z) :
  0 < b ->
  Math_ceil_div a b = a / b + (if a mod b =? 0 then 0 else 1).
Proof.
  intros Hb. apply Math_ceil_div_unique; [exact Hb|].
  pose proof (Z.div_mod a b ltac:(lia)) as Hdiv.
  pose proof (Z.mod_pos_bound a b Hb) as Hmod.
  destruct (Z.eqb_spec (a mod b) 0); nia.
Qed.

(** C1 does not hold as stated: at the first millisecond of the start date
    the game number is 0, while one millisecond later on the same day it
    is 1. *)
Lemma getGameNumber_at_start_is_zero :
  let start := GAME_CONFIG.COSTCODLE_START_DATE 0 in
  start <= start /\
  dateUtils.getGameNumber 0 start = 0 /\
  ~ 1 <= dateUtils.getGameNumber 0 start /\
  dateUtils.localDay 0 start = dateUtils.localDay 0 (start + 1) /\
  dateUtils.getGameNumber 0 start <> dateUtils.getGameNumber 0 (start + 1).
Proof. cbv. repeat split; congruence. Qed.

(** C1, amended. For every timestamp [now], [getGameNumber] is the ceiling
    of [(now - start) / 86400000]: the integer [n] with
    [86400000 * (n - 1) < now - start <= 86400000 * n], where [start] is the
    local midnight of the start date under the offset in force on that
    date.  It is total, at least 1 for every timestamp after the start, and
    1 from the first millisecond after the start up to the instant 24 hours
    later.  [zone] gives the offset of the host at each timestamp: where it
    is the offset of the start date, the number is the number of calendar
    days since the start date plus one, except at midnight sharp, where it
    is still the number of the day before; so two timestamps of one calendar
    day, neither at midnight sharp, both under the offset of the start date,
    have the same number. *)
Theorem getGameNumber_spec :
  forall (startOffset : Z) (zone : Z -> Z) (now : Z),
    let start := GAME_CONFIG.COSTCODLE_START_DATE startOffset in
    let n := dateUtils.getGameNumber startOffset now in
    86400000 * (n - 1) < now - start <= 86400000 * n /\
    (start < now -> 1 <= n) /\
    (start < now <= start + 86400000 -> n = 1) /\
    (zone now = startOffset ->
     n = dateUtils.localDay (zone now) now
         - dateUtils.localDay startOffset start
         + (if dateUtils.atMidnight (zone now) now then 0 else 1)) /\
    (forall now' : Z,
        zone now = startOffset ->
        zone now' = startOffset ->
        dateUtils.localDay (zone now) now = dateUtils.localDay (zone now') now' ->
        dateUtils.atMidnight (zone now) now = false ->
        dateUtils.atMidnight (zone now') now' = false ->
        dateUtils.getGameNumber startOffset now' = n).
Proof.
  intros startOffset zone now start n.
  assert (Hday : 0 < dateUtils.MS_PER_DAY) by reflexivity.
  assert (Hfloor : forall t,
            dateUtils.getGameNumber startOffset t
            = dateUtils.localDay startOffset t
              - dateUtils.localDay startOffset start
              + (if dateUtils.atMidnight startOffset t then 0 else 1)).
  { intros t. unfold dateUtils.getGameNumber, dateUtils.localDay,
      dateUtils.atMidnight, start, GAME_CONFIG.COSTCODLE_START_DATE,
      GAME_CONFIG.START_DATE_UTC.
    rewrite Math_ceil_div_floor by exact Hday.
    replace (t - (1695254400000 + startOffset * 60000))
      with ((t - startOffset * 60000) + (-19621) * dateUtils.MS_PER_DAY)
      by (unfold dateUtils.MS_PER_DAY; lia).
    rewrite Z.div_add, Z.mod_add by (unfold dateUtils.MS_PER_DAY; lia).
    replace (1695254400000 + startOffset * 60000 - startOffset * 60000)
      with (0 + 19621 * dateUtils.MS_PER_DAY)
      by (unfold dateUtils.MS_PER_DAY; lia).
    rewrite Z.div_add by (unfold dateUtils.MS_PER_DAY; lia).
    change (0 / dateUtils.MS_PER_DAY) with 0.
    destruct ((t - startOffset * 60000) mod dateUtils.MS_PER_DAY =? 0); lia. }
  pose proof (Math_ceil_div_bounds (now - start) dateUtils.MS_PER_DAY Hday)
    as Hceil.
  change (Math_ceil_div (now - start) dateUtils.MS_PER_DAY) with n in Hceil.
  change dateUtils.MS_PER_DAY with 86400000 in Hceil.
  split; [exact Hceil|]. split; [intros; lia|]. split; [intros; lia|].
  split.
  - intros Hzone. rewrite Hzone. apply Hfloor.
  - intros now' Hzone Hzone' Hsame Hnow Hnow'. unfold n.
    rewrite Hzone in Hsame, Hnow. rewrite Hzone' in Hsame, Hnow'.
    rewrite (Hfloor now), (Hfloor now'), Hsame, Hnow, Hnow'. reflexivity.
Qed.

Lemma getGameNumber_spec_witness :
  let start := GAME_CONFIG.COSTCODLE_START_DATE 0 in
  start < start + 43200000 <= start + 86400000 /\
  dateUtils.getGameNumber 0 (start + 43200000) = 1.
Proof.
  assert (H : GAME_CONFIG.COSTCODLE_START_DATE 0
              < GAME_CONFIG.COSTCODLE_START_DATE 0 + 43200000
              <= GAME_CONFIG.COSTCODLE_START_DATE 0 + 86400000) by (cbn; lia).
  split; [exact H|].
  exact (proj1 (proj2 (proj2
           (getGameNumber_spec 0 (fun _ => 0)
              (GAME_CONFIG.COSTCODLE_START_DATE 0 + 43200000))))
           H).
Defined.

(** Where the offset of the host has changed since the start date, the
    calendar day does not decide the number.  A host in New York was on
    summer time on the start date (offset 240) and is on winter time
    (offset 300) on 15 January 2024: at 22:30 and at 23:30 local time of
    that day, neither of them midnight, the numbers are 117 and 118. *)
Lemma getGameNumber_daylight_saving :
  let startOffset := 240 in
  let offset := 300 in
  let evening := 1705375800000 in
  let night := 1705379400000 in
  dateUtils.localDay offset evening = dateUtils.localDay offset night /\
  dateUtils.atMidnight offset evening = false /\
  dateUtils.atMidnight offset night = false /\
  dateUtils.getGameNumber startOffset evening = 117 /\
  dateUtils.getGameNumber startOffset night = 118.
Proof. vm_compute. repeat split; reflexivity. Qed.

(** ** The evaluation of a guess *)

(** Whatever the arithmetic, the closeness and the direction are read off
    the computed percentage by the two thresholds and the sign test, and a
    zero target never divides: it gives 0 for a zero guess and [Infinity]
    otherwise. *)
Lemma createGuessObject_structure :
  forall (num : Type) (NUM : JSNumber num) (value : num) (st : AppState num),
    let percentAway :=
      calculatePercentDifference value (AppState.productPrice st) in
    let g := createGuessObject value st in
    guess g = value /\
    closeness g
      = (if num_leb (num_abs percentAway) (num_of_Z 5) then guess_win
         else if num_leb (num_abs percentAway) (num_of_Z 25) then guess_near
         else guess_far) /\
    direction g
      = match closeness g with
        | guess_win => check
        | _ => if num_ltb percentAway (num_of_Z 0) then uarr else darr
        end /\
    (num_eqb (AppState.productPrice st) (num_of_Z 0) = true ->
     percentAway = if num_eqb value (num_of_Z 0) then num_of_Z 0 else num_Infinity).
Proof.
  intros num NUM value st percentAway g. subst g. unfold createGuessObject.
  fold percentAway. cbn.
  change GAME_CONFIG.WIN_THRESHOLD_PERCENT with 5.
  change GAME_CONFIG.NEAR_THRESHOLD_PERCENT with 25.
  split; [reflexivity|]. split; [reflexivity|]. split.
  - destruct (num_leb (num_abs percentAway) (num_of_Z 5)); [reflexivity|].
    destruct (num_leb (num_abs percentAway) (num_of_Z 25)); reflexivity.
  - intros Hzero. subst percentAway. unfold calculatePercentDifference.
    rewrite Hzero. reflexivity.
Qed.

Section ExactArithmetic.

Lemma Qzero_false (q : Q) : ~ q == 0 -> Exact.Qzero q = false.
Proof.
  intros H. unfold Exact.Qzero. destruct (Qeq_bool q 0) eqn:E; [|reflexivity].
  apply Qeq_bool_iff in E. contradiction.
Qed.

Lemma Qzero_true (q : Q) : q == 0 -> Exact.Qzero q = true.
Proof. intros H. unfold Exact.Qzero. apply Qeq_bool_iff, H. Qed.

Lemma Qle_bool_Qabs_compat (p q c : Q) :
  p == q -> Qle_bool (Qabs p) c = Qle_bool (Qabs q) c.
Proof.
  intros H. apply eq_true_iff_eq. rewrite !Qle_bool_iff, H. reflexivity.
Qed.

Lemma Qlt_bool_compat (p q c : Q) :
  p == q -> Exact.Qlt_bool p c = Exact.Qlt_bool q c.
Proof.
  intros H. unfold Exact.Qlt_bool. f_equal.
  apply eq_true_iff_eq. rewrite !Qle_bool_iff, H. reflexivity.
Qed.

(** Without rounding the percentage of the code is the one of the
    specification. *)
Lemma calculatePercentDifference_exact (g t : Q) :
  ~ t == 0 ->
  exists p : Q,
    calculatePercentDifference (Exact.Fin g) (Exact.Fin t) = Exact.Fin p /\
    p == spec_percentAway g t.
Proof.
  intros Ht. exists (g * 100 / (t * 100) * 100 - 100)%Q. split.
  - unfold calculatePercentDifference. cbn.
    change (Qeq_bool t (inject_Z 0)) with (Exact.Qzero t).
    rewrite (Qzero_false t Ht). cbn.
    change (inject_Z 100) with 100%Q.
    rewrite Qzero_false; [reflexivity|].
    intros E. apply Ht. apply Qmult_integral in E. destruct E as [E|E];
      [exact E|discriminate].
  - unfold spec_percentAway. field. exact Ht.
Qed.

(** With exact arithmetic [createGuessObject] is the evaluation of the
    specification, for every guess and every target. *)
Lemma createGuessObject_exact (g t : Q) (st : AppState Exact.number) :
  AppState.productPrice st = Exact.Fin t ->
  let r := createGuessObject (Exact.Fin g) st in
  guess r = Exact.Fin g /\
  (t == 0 -> g == 0 ->
     calculatePercentDifference (Exact.Fin g) (Exact.Fin t) = Exact.Fin 0 /\
     closeness r = guess_win /\ direction r = check) /\
  (t == 0 -> ~ g == 0 ->
     calculatePercentDifference (Exact.Fin g) (Exact.Fin t) = Exact.Inf false /\
     closeness r = guess_far /\ direction r = darr) /\
  (~ t == 0 ->
     closeness r = spec_closeness (spec_percentAway g t) /\
     direction r = spec_direction (spec_percentAway g t)).
Proof.
  intros Hprice r. subst r. unfold createGuessObject. rewrite Hprice.
  split; [reflexivity|]. split; [|split].
  - intros Ht Hg. unfold calculatePercentDifference. cbn.
    change (Qeq_bool t (inject_Z 0)) with (Exact.Qzero t).
    change (Qeq_bool g (inject_Z 0)) with (Exact.Qzero g).
    rewrite (Qzero_true t Ht), (Qzero_true g Hg). cbn. repeat split.
  - intros Ht Hg. unfold calculatePercentDifference. cbn.
    change (Qeq_bool t (inject_Z 0)) with (Exact.Qzero t).
    change (Qeq_bool g (inject_Z 0)) with (Exact.Qzero g).
    rewrite (Qzero_true t Ht), (Qzero_false g Hg). cbn. repeat split.
  - intros Ht.
    destruct (calculatePercentDifference_exact g t Ht) as (p & Hp & Hspec).
    rewrite Hp. cbn -[Qabs Qle_bool].
    unfold spec_closeness, spec_direction.
    change (inject_Z GAME_CONFIG.WIN_THRESHOLD_PERCENT) with 5%Q.
    change (inject_Z GAME_CONFIG.NEAR_THRESHOLD_PERCENT) with 25%Q.
    change (inject_Z 0) with 0%Q.
    rewrite <- (Qle_bool_Qabs_compat p _ 5 Hspec),
            <- (Qle_bool_Qabs_compat p _ 25 Hspec),
            <- (Qlt_bool_compat p _ 0 Hspec).
    destruct (Qle_bool (Qabs p) 5); [split; reflexivity|].
    destruct (Qle_bool (Qabs p) 25); split; reflexivity.
Qed.

End ExactArithmetic.

(** The two scenarios of the specification, on doubles: a guess of 95 for a
    price of 100 is a win, a guess of 70 is far and too low. *)
Lemma createGuessObject_scenarios :
  let st := setProductData (dollars 10000) (initialState 1) in
  createGuessObject (dollars 9500) st = mkGuess (dollars 9500) guess_win check /\
  createGuessObject (dollars 7000) st = mkGuess (dollars 7000) guess_far uarr.
Proof. vm_compute. split; reflexivity. Qed.

(** C8 fails on the doubles the code computes with.  A guess of 16.15 for a
    price of 17.00 is exactly 5 percent below the price, a win by the rule
    of the claim and by the code run on exact numbers.  On doubles
    [16.15 * 100] is 1614.9999999999998, the computed percentage falls just
    below -5, and the guess is classified near and too low. *)
Theorem createGuessObject_threshold_rounding :
  let guess := dollars 1615 in
  let st := setProductData (dollars 1700) (initialState 1) in
  let percentAway := calculatePercentDifference guess (AppState.productPrice st) in
  Qabs (spec_percentAway (1615 # 100) 17) == 5 /\
  spec_closeness (spec_percentAway (1615 # 100) 17) = guess_win /\
  spec_direction (spec_percentAway (1615 # 100) 17) = check /\
  createGuessObject (exactDollars 1615)
    (setProductData (exactDollars 1700) (initialState 1))
    = mkGuess (exactDollars 1615) guess_win check /\
  PrimFloat.ltb (PrimFloat.mul guess (Binary64.of_Z 100)) (Binary64.of_Z 1615)
    = true /\
  PrimFloat.ltb percentAway (Binary64.of_Z (-5)) = true /\
  num_leb (num_abs percentAway) (num_of_Z 5) = false /\
  closeness (createGuessObject guess st) = guess_near /\
  direction (createGuessObject guess st) = uarr.
Proof. vm_compute. repeat split; congruence. Qed.

(** ** The validation of an archive game number *)

Section ParseInt.

Lemma skipWhiteSpace_hasDigit (s : string) :
  hasDigit s = false -> hasDigit (skipWhiteSpace s) = false.
Proof.
  induction s as [|c s IH]; cbn; [reflexivity|]. intros H.
  apply orb_false_elim in H. destruct H as [Hc Hs].
  destruct (isStrWhiteSpaceChar c); [apply IH, Hs|].
  cbn. rewrite Hc, Hs. reflexivity.
Qed.

Lemma parseDigits_no_digit (s : string) (acc : Z) :
  hasDigit s = false -> parseDigits s false acc = None.
Proof.
  destruct s as [|c s]; cbn; [reflexivity|]. intros H.
  apply orb_false_elim in H. destruct H as [Hc _]. rewrite Hc. reflexivity.
Qed.

(** A string without a digit reads as NaN. *)
Lemma parseIntZ_no_digit (s : string) : hasDigit s = false -> parseIntZ s = None.
Proof.
  intros H. apply skipWhiteSpace_hasDigit in H. unfold parseIntZ.
  destruct (skipWhiteSpace s) as [|c t]; [reflexivity|].
  cbn in H. apply orb_false_elim in H. destruct H as [Hc Ht].
  assert (Hrest : forall acc, parseDigits t false acc = None)
    by (intros acc; apply parseDigits_no_digit, Ht).
  assert (Hall : parseDigits (String c t) false 0 = None)
    by (cbn; rewrite Hc; reflexivity).
  destruct c as [[] [] [] [] [] [] [] []]; try exact Hall;
    rewrite Hrest; reflexivity.
Qed.

Lemma parseDigits_stops (d : string) (c : ascii) (rest : string) :
  allDigits d = true -> isDigit c = false ->
  forall (seen : bool) (acc : Z),
    parseDigits (d ++ String c rest) seen acc = parseDigits d seen acc.
Proof.
  intros Hd Hc. induction d as [|x d IH]; intros seen acc; cbn.
  - rewrite Hc. reflexivity.
  - cbn in Hd. apply andb_prop in Hd. destruct Hd as [Hx Hd].
    rewrite Hx. apply IH, Hd.
Qed.

Lemma parseDigits_seen (d : string) :
  allDigits d = true ->
  forall acc : Z, 0 <= acc ->
    exists z, 0 <= z /\ parseDigits d true acc = Some z.
Proof.
  induction d as [|x d IH]; intros Hd acc Hacc; cbn.
  - exists acc. split; [exact Hacc|reflexivity].
  - cbn in Hd. apply andb_prop in Hd. destruct Hd as [Hx Hd]. rewrite Hx.
    apply IH; [exact Hd|]. unfold digitValue. unfold isDigit in Hx.
    apply andb_prop in Hx. destruct Hx as [Hlo _]. apply Nat.leb_le in Hlo. lia.
Qed.

(** A digit is neither white space nor a sign. *)
Lemma parseIntZ_digit_first (c : ascii) (t : string) :
  isDigit c = true -> parseIntZ (String c t) = parseDigits (String c t) false 0.
Proof.
  intros Hc. unfold parseIntZ.
  destruct c as [[] [] [] [] [] [] [] []]; try discriminate Hc; reflexivity.
Qed.

(** A decimal notation reads as its integer part: what follows the digits,
    the point included, is ignored. *)
Lemma parseIntZ_decimal (d frac : string) :
  allDigits d = true -> d <> EmptyString ->
  parseIntZ (d ++ String "." frac) = parseIntZ d /\
  exists z, 0 <= z /\ parseIntZ d = Some z.
Proof.
  intros Hd Hne. destruct d as [|c d]; [contradiction|].
  pose proof Hd as Hd'. cbn in Hd'. apply andb_prop in Hd'.
  destruct Hd' as [Hc Hrest].
  change (String c d ++ String "." frac)%string
    with (String c (d ++ String "." frac))%string.
  rewrite !parseIntZ_digit_first by exact Hc. split.
  - apply (parseDigits_stops (String c d) "." frac Hd eq_refl).
  - cbn. rewrite Hc. apply parseDigits_seen; [exact Hrest|].
    unfold digitValue. unfold isDigit in Hc. apply andb_prop in Hc.
    destruct Hc as [Hlo _]. apply Nat.leb_le in Hlo. lia.
Qed.

End ParseInt.

(** C9 does not hold as stated: the decimal string ["3.7"] is read as 3 and
    accepted, and the number 2.5 is accepted without being made an
    integer; the same happens on doubles. *)
Lemma validateGameNumber_accepts_decimals :
  validateGameNumber (inr "3.7"%string) (Exact.Fin 10)
    = Valid (Exact.Fin 3) None /\
  validateGameNumber (inl (Exact.Fin (5 # 2))) (Exact.Fin 10)
    = Valid (Exact.Fin (5 # 2)) None /\
  validateGameNumber (inr "3.7"%string) (Binary64.of_Z 10)
    = Valid (Binary64.of_Z 3) None /\
  validateGameNumber (inl (PrimFloat.div (Binary64.of_Z 5) (Binary64.of_Z 2)))
    (Binary64.of_Z 10)
    = Valid (PrimFloat.div (Binary64.of_Z 5) (Binary64.of_Z 2)) None.
Proof. vm_compute. repeat split; reflexivity. Qed.

(** C9, amended. [validateGameNumber] reads a string argument with
    [parseInt] in base 10 and takes a number argument as it is.  A string
    without a digit reads as NaN and fails; a decimal string reads as its
    integer part.  The call succeeds, returning the value read, exactly
    when that value is a number between 1 and the maximum, bounds
    included; every other call fails with the range message. *)
Theorem validateGameNumber_spec :
  forall (requested : Exact.number + string) (maxGameNumber : Q),
    let coerced :=
      match requested with inl n => n | inr s => parseInt s end in
    let result := validateGameNumber requested (Exact.Fin maxGameNumber) in
    (valid result = true <->
       exists q, coerced = Exact.Fin q /\ (1 <= q)%Q /\ (q <= maxGameNumber)%Q) /\
    (valid result = true -> result = Valid coerced None) /\
    (valid result = false ->
       result = Invalid (GAME_NUMBER_RANGE (Exact.Fin maxGameNumber))) /\
    (forall s, requested = inr s -> hasDigit s = false ->
       coerced = Exact.NaN /\ valid result = false) /\
    (forall d frac, requested = inr (d ++ String "." frac)%string ->
       allDigits d = true -> d <> EmptyString ->
       coerced = parseInt d /\
       exists z, 0 <= z /\ coerced = Exact.Fin (inject_Z z)).
Proof.
  intros requested maxGameNumber coerced result.
  assert (Hres : result
            = if Exact.isNaN coerced || Exact.ltb coerced (Exact.Fin 1)
                 || Exact.ltb (Exact.Fin maxGameNumber) coerced
              then Invalid (GAME_NUMBER_RANGE (Exact.Fin maxGameNumber))
              else Valid coerced None)
    by (subst result coerced; destruct requested; reflexivity).
  assert (Hvalid : valid result = true <->
            exists q, coerced = Exact.Fin q /\ (1 <= q)%Q /\ (q <= maxGameNumber)%Q).
  { rewrite Hres. destruct coerced as [|s|q]; cbn.
    - split; [discriminate|]. intros (q & E & _). discriminate.
    - destruct s; cbn; (split; [discriminate|]); intros (q & E & _);
        discriminate.
    - unfold Exact.Qlt_bool.
      destruct (Qle_bool 1 q) eqn:H1; destruct (Qle_bool q maxGameNumber) eqn:H2;
        cbn; split; try discriminate.
      + intros _. exists q. apply Qle_bool_iff in H1, H2. auto.
      + intros _. reflexivity.
      + intros (q' & E & _ & Hle). injection E as <-.
        apply Qle_bool_iff in Hle. congruence.
      + intros (q' & E & Hle & _). injection E as <-.
        apply Qle_bool_iff in Hle. congruence.
      + intros (q' & E & Hle & _). injection E as <-.
        apply Qle_bool_iff in Hle. congruence. }
  split; [exact Hvalid|]. split; [|split; [|split]].
  - rewrite Hres. destruct (_ || _); [discriminate|reflexivity].
  - rewrite Hres. destruct (_ || _); [reflexivity|discriminate].
  - intros s -> Hs.
    assert (Hnan : coerced = Exact.NaN).
    { subst coerced. unfold parseInt. rewrite (parseIntZ_no_digit s Hs).
      reflexivity. }
    split; [exact Hnan|]. rewrite Hres, Hnan. reflexivity.
  - intros d frac -> Hd Hne. subst coerced. unfold parseInt.
    destruct (parseIntZ_decimal d frac Hd Hne) as (Heq & z & Hz & Hd').
    rewrite Heq, Hd'. split; [reflexivity|]. exists z. split; [exact Hz|reflexivity].
Qed.

Lemma validateGameNumber_spec_witness :
  allDigits "25" = true /\
  parseInt "25.75" = Exact.Fin 25 /\
  validateGameNumber (inr "25.75"%string) (Exact.Fin 100)
    = Valid (Exact.Fin 25) None.
Proof.
  assert (Hd : allDigits "25" = true) by reflexivity.
  assert (Hne : "25"%string <> EmptyString) by discriminate.
  destruct (validateGameNumber_spec (inr "25.75"%string) 100)
    as (_ & Hok & _ & _ & Hdec).
  destruct (Hdec "25"%string "75"%string eq_refl Hd Hne) as [Hint _].
  split; [exact Hd|]. split; [exact Hint|].
  exact (Hok eq_refl).
Defined.

(** ** The expectations of the unit tests, on doubles *)

(** [tests/utils/mathUtils.test.ts], [calculatePercentDifference] and
    [isWithinPercent]. *)
Lemma mathUtils_tests :
  calculatePercentDifference (dollars 10000) (dollars 10000) = Binary64.of_Z 0 /\
  calculatePercentDifference (dollars 0) (dollars 0) = Binary64.of_Z 0 /\
  calculatePercentDifference (dollars 1000) (dollars 0) = PrimFloat.infinity /\
  calculatePercentDifference (dollars 1050) (dollars 1000) = Binary64.of_Z 5 /\
  calculatePercentDifference (dollars 950) (dollars 1000) = Binary64.of_Z (-5) /\
  isWithinPercent (dollars 9500) (dollars 10000) (Binary64.of_Z 5) = true /\
  isWithinPercent (dollars 10500) (dollars 10000) (Binary64.of_Z 5) = true /\
  isWithinPercent (dollars 10000) (dollars 10000) (Binary64.of_Z 5) = true /\
  isWithinPercent (dollars 9400) (dollars 10000) (Binary64.of_Z 5) = false /\
  isWithinPercent (dollars 10600) (dollars 10000) (Binary64.of_Z 5) = false /\
  isWithinPercent (dollars 0) (dollars 0) (Binary64.of_Z 5) = true /\
  isWithinPercent (dollars 100) (dollars 0) (Binary64.of_Z 5) = false.
Proof. vm_compute. repeat split; reflexivity. Qed.

(** [tests/utils/mathUtils.test.ts], [validateGameNumber]. *)
Lemma validateGameNumber_tests :
  let max := Binary64.of_Z 100 in
  let range := Invalid (GAME_NUMBER_RANGE max) in
  validateGameNumber (inl (Binary64.of_Z 1)) max = Valid (Binary64.of_Z 1) None /\
  validateGameNumber (inl (Binary64.of_Z 50)) max = Valid (Binary64.of_Z 50) None /\
  validateGameNumber (inl (Binary64.of_Z 100)) max
    = Valid (Binary64.of_Z 100) None /\
  validateGameNumber (inr "25"%string) max = Valid (Binary64.of_Z 25) None /\
  validateGameNumber (inl (Binary64.of_Z 0)) max = range /\
  validateGameNumber (inl (Binary64.of_Z 101)) max = range /\
  validateGameNumber (inl (Binary64.of_Z (-1))) max = range /\
  validateGameNumber (inr "abc"%string) max = range /\
  validateGameNumber (inr ""%string) max = range.
Proof. vm_compute. repeat split; reflexivity. Qed.

(** [tests/utils/dateUtils.test.ts], run in UTC: 2023-10-01T00:00:00.000Z,
    2023-09-21T12:00:00.000Z, 2023-09-22T08:00:00.000Z and
    2023-09-22T23:59:59.999Z. *)
Lemma dateUtils_tests :
  dateUtils.getGameNumber 0 1696118400000 = 10 /\
  dateUtils.getGameNumber 0 1695297600000 = 1 /\
  dateUtils.getGameNumber 0 1695369600000 = 2 /\
  dateUtils.getGameNumber 0 1695427199999 = 2.
Proof. vm_compute. repeat split; reflexivity. Qed.

(** * Further properties of the state manager *)

Section ManagerProperties.
Context {num : Type} {NUM : JSNumber num}.

Lemma processValidGuess_frame (value : num) (st : AppState num) :
  let st' := fst (processValidGuess value st) in
  AppState.isArchiveMode st' = AppState.isArchiveMode st /\
  AppState.selectedGameNumber st' = AppState.selectedGameNumber st /\
  AppState.gameNumber st' = AppState.gameNumber st /\
  AppState.productPrice st' = AppState.productPrice st.
Proof.
  cbn zeta. unfold processValidGuess, handleGameWon, handleGameLost,
    setGameWon, setGameLost.
  destruct (canGuess st); cbn -[createGuessObject]; [|auto].
  destruct (GuessCloseness_eqb _ _); cbn -[createGuessObject].
  - destruct (AppState.isArchiveMode st) eqn:E; cbn -[createGuessObject];
      rewrite ?E; auto.
  - destruct (_ <=? _); cbn -[createGuessObject]; [|auto].
    destruct (AppState.isArchiveMode st) eqn:E; cbn -[createGuessObject];
      rewrite ?E; auto.
Qed.

Lemma call_archiveConsistent (c : ManagerCall num) (st : AppState num) :
  archiveConsistent st -> archiveConsistent (call st c).
Proof.
  unfold archiveConsistent. intros H. destruct c; cbn -[processValidGuess].
  - destruct (AppState.isArchiveMode st); cbn; [discriminate|reflexivity].
  - intros ->. reflexivity.
  - exact H.
  - unfold initializeGame. destruct (AppState.isArchiveMode st) eqn:E; cbn.
    + intros _. apply H. reflexivity.
    + destruct (negb _); cbn.
      * destruct (Bool.eqb _ _); cbn; rewrite ?E; discriminate.
      * rewrite E. discriminate.
  - exact H.
  - unfold setGameWon. cbn.
    destruct (AppState.isArchiveMode st) eqn:E; cbn; rewrite ?E;
      [intros _; apply H; reflexivity|discriminate].
  - unfold setGameLost.
    destruct (AppState.isArchiveMode st) eqn:E; cbn; rewrite ?E;
      [intros _; apply H; reflexivity|discriminate].
  - destruct (processValidGuess_frame value st) as (Hm & Hs & Hg & _).
    rewrite Hm, Hs, Hg. exact H.
Qed.

End ManagerProperties.

(** X1. Once the constructor has computed the game number, whatever the
    game module calls on the manager afterwards, in archive mode the game
    number is the selected game number. *)
Theorem archive_gameNumber_is_selected :
  forall (num : Type) (NUM : JSNumber num) (today : Z)
         (loaded : AppState num) (l : list (ManagerCall num)),
    let st := callAll l (calculateGameNumber today loaded) in
    AppState.isArchiveMode st = true ->
    AppState.gameNumber st = AppState.selectedGameNumber st.
Proof.
  intros num NUM today loaded l.
  assert (H : forall st0 : AppState num,
             archiveConsistent st0 -> archiveConsistent (callAll l st0)).
  { unfold callAll. induction l as [|c l IH]; intros st0 H0; cbn.
    - exact H0.
    - apply IH, call_archiveConsistent, H0. }
  apply H. unfold archiveConsistent, calculateGameNumber. cbn.
  intros ->. reflexivity.
Qed.

Lemma archive_gameNumber_is_selected_witness :
  let st := callAll [ CallSetSelectedGameNumber 3; CallToggleArchiveMode 9;
                      CallInitializeGame; CallSetSelectedGameNumber 4 ]
              (calculateGameNumber 9 (initialState 1)) in
  AppState.isArchiveMode st = true /\
  AppState.gameNumber st = AppState.selectedGameNumber st.
Proof.
  split; [reflexivity|].
  apply (archive_gameNumber_is_selected Exact.number _ 9 (initialState 1)
           [ CallSetSelectedGameNumber 3; CallToggleArchiveMode 9;
             CallInitializeGame; CallSetSelectedGameNumber 4 ]).
  reflexivity.
Defined.

(** X2. Switching the mode twice on the same day gives back the state,
    provided the game number was the one of the mode: the selected number
    in archive mode, today's number in daily mode. *)
Theorem toggleArchiveMode_twice :
  forall (num : Type) (NUM : JSNumber num) (today : Z) (st : AppState num),
    AppState.gameNumber st
      = (if AppState.isArchiveMode st
         then AppState.selectedGameNumber st else today) ->
    toggleArchiveMode today (toggleArchiveMode today st) = st.
Proof.
  intros num NUM today st H. destruct st as [mode sel game price gs us].
  cbn in *. unfold toggleArchiveMode. cbn. rewrite negb_involutive.
  destruct mode; cbn; rewrite H; reflexivity.
Qed.

Lemma toggleArchiveMode_twice_witness :
  let st := calculateGameNumber 9 (@initialState Exact.number _ 1) in
  AppState.gameNumber st = 9 /\
  toggleArchiveMode 9 (toggleArchiveMode 9 st) = st.
Proof.
  split; [reflexivity|].
  apply (toggleArchiveMode_twice Exact.number _ 9
           (calculateGameNumber 9 (initialState 1))).
  reflexivity.
Defined.

(** X3. [initializeGame] is idempotent in both modes: calling it again right
    away changes nothing, whatever the stored session was. *)
Theorem initializeGame_idempotent :
  forall (num : Type) (st : AppState num),
    initializeGame (initializeGame st) = initializeGame st.
Proof.
  intros num [mode sel game price [gn gl hw] us]. unfold initializeGame.
  destruct mode; cbn; [reflexivity|].
  destruct (Z.eqb_spec gn game) as [Heq|Hne]; cbn.
  - destruct (Z.eqb_spec gn game); [reflexivity|contradiction].
  - destruct hw; cbn; rewrite Z.eqb_refl; reflexivity.
Qed.

(** ** Sessions and statistics stay sound under play *)

Section SoundSessions.
Context {num : Type} {NUM : JSNumber num}.

Lemma createGuessObject_directionMatches (value : num) (st : AppState num) :
  directionMatches (createGuessObject value st) = true.
Proof.
  unfold directionMatches, isWin, createGuessObject. cbn.
  destruct (num_leb _ _); cbn; [reflexivity|].
  destruct (num_leb _ _); cbn; destruct (num_ltb _ _); reflexivity.
Qed.

Lemma winOnlyLast_snoc (l : list (Guess num)) (g : Guess num) :
  winOnlyLast l false = true -> winOnlyLast (l ++ [g]) (isWin g) = true.
Proof.
  induction l as [|x l IH]; cbn [winOnlyLast app]; intros H.
  - apply eqb_reflx.
  - destruct l as [|y l].
    + cbn in *. apply eqb_prop in H. rewrite H. cbn. apply eqb_reflx.
    + apply andb_prop in H. destruct H as [Hx Hl].
      change ((y :: l) ++ [g]) with (y :: (l ++ [g])) in *.
      cbn [winOnlyLast] in IH |- *.
      rewrite Hx. cbn. apply IH. exact Hl.
Qed.

(** The session after an accepted guess. *)
Lemma processValidGuess_gameState (value : num) (st : AppState num) :
  canGuess st = true ->
  AppState.gameState (fst (processValidGuess value st))
    = {| gameNumber := gameNumber (AppState.gameState st);
         guesses := guesses (AppState.gameState st) ++ [createGuessObject value st];
         hasWon := isWin (createGuessObject value st) |}.
Proof.
  intros Hcan. destruct (canGuess_true st Hcan) as [Hnot _]. unfold isWin.
  destruct (GuessCloseness_eqb (closeness (createGuessObject value st))
              CSS_CLASSES.WIN) eqn:Hwin.
  - apply GuessCloseness_eqb_eq in Hwin.
    rewrite (processValidGuess_win value st Hcan Hwin).
    unfold setGameWon. cbn -[createGuessObject].
    destruct (AppState.isArchiveMode st); reflexivity.
  - assert (Hno : closeness (createGuessObject value st) <> guess_win).
    { intros E. apply GuessCloseness_eqb_eq in E. unfold CSS_CLASSES.WIN in Hwin.
      congruence. }
    rewrite (processValidGuess_no_win value st Hcan Hno).
    destruct (6 <=? _); unfold setGameLost; cbn -[createGuessObject];
      [destruct (AppState.isArchiveMode st); cbn -[createGuessObject]|];
      rewrite Hnot; reflexivity.
Qed.

Lemma call_sessionWellFormed (c : ManagerCall num) (st : AppState num) :
  playerCall c = true ->
  sessionWellFormed (AppState.gameState st) = true ->
  sessionWellFormed (AppState.gameState (call st c)) = true.
Proof.
  intros Hc Hwf. destruct c; try discriminate Hc; cbn -[processValidGuess].
  - exact Hwf.
  - exact Hwf.
  - exact Hwf.
  - unfold initializeGame. destruct (AppState.isArchiveMode st); cbn;
      [reflexivity|].
    destruct (negb _); cbn; [|exact Hwf].
    destruct (Bool.eqb _ _); reflexivity.
  - destruct (canGuess st) eqn:Hcan.
    2:{ rewrite processValidGuess_rejected by exact Hcan. exact Hwf. }
    rewrite (processValidGuess_gameState value st Hcan).
    destruct (canGuess_true st Hcan) as [Hnot Hlen].
    unfold sessionWellFormed in *. cbn -[createGuessObject].
    apply andb_prop in Hwf. destruct Hwf as [Hwf Hdir].
    apply andb_prop in Hwf. destruct Hwf as [_ Hlast].
    rewrite Hnot in Hlast.
    rewrite (winOnlyLast_snoc _ _ Hlast), forallb_app, Hdir.
    cbn -[createGuessObject]. rewrite createGuessObject_directionMatches.
    rewrite length_app. cbn [length]. unfold GAME_CONFIG.MAX_GUESSES.
    destruct (Z.leb_spec (Z.of_nat (length (guesses (AppState.gameState st)) + 1)) 6);
      [reflexivity|lia].
Qed.

End SoundSessions.

(** X4. Starting from a sound session, whatever the player does (switching
    mode, selecting a puzzle, loading a page, guessing), the session stays
    sound: it holds at most six guesses, it is won exactly when its last
    guess is a win, no guess follows a win, and the check mark is shown for
    the winning guess only. *)
Theorem session_stays_well_formed :
  forall (num : Type) (NUM : JSNumber num) (l : list (ManagerCall num))
         (st : AppState num),
    forallb playerCall l = true ->
    sessionWellFormed (AppState.gameState st) = true ->
    sessionWellFormed (AppState.gameState (callAll l st)) = true.
Proof.
  intros num NUM l. unfold callAll.
  induction l as [|c l IH]; intros st Hl Hwf; cbn in *.
  - exact Hwf.
  - apply andb_prop in Hl. destruct Hl as [Hc Hl].
    apply IH; [exact Hl|]. apply call_sessionWellFormed; assumption.
Qed.

Lemma session_stays_well_formed_witness :
  let l := [ CallInitializeGame; CallSetProductData (Exact.Fin 100);
             CallProcessGuess (Exact.Fin 50); CallProcessGuess (Exact.Fin 97);
             CallProcessGuess (Exact.Fin 10); CallToggleArchiveMode 9;
             CallInitializeGame; CallProcessGuess (Exact.Fin 1) ] in
  let st := calculateGameNumber 9 (@initialState Exact.number _ 9) in
  forallb playerCall l = true /\
  sessionWellFormed (AppState.gameState st) = true /\
  sessionWellFormed (AppState.gameState (callAll l st)) = true.
Proof.
  split; [reflexivity|]. split; [reflexivity|].
  apply (session_stays_well_formed Exact.number _
           [ CallInitializeGame; CallSetProductData (Exact.Fin 100);
             CallProcessGuess (Exact.Fin 50); CallProcessGuess (Exact.Fin 97);
             CallProcessGuess (Exact.Fin 10); CallToggleArchiveMode 9;
             CallInitializeGame; CallProcessGuess (Exact.Fin 1) ]
           (calculateGameNumber 9 (initialState 9))); reflexivity.
Defined.

Section SoundStats.
Context {num : Type} {NUM : JSNumber num}.

Lemma sumZ_insert (l : list Z) (i : nat) (x y : Z) :
  l !! i = Some x -> sumZ (<[i := y]> l) = sumZ l - x + y.
Proof.
  unfold sumZ. revert i.
  induction l as [|a l IH]; intros [|i] H; try discriminate H.
  - injection H as ->. cbn. lia.
  - change (<[S i := y]> (a :: l)) with (a :: <[i := y]> l).
    change (foldr Z.add 0 (a :: <[i := y]> l))
      with (a + foldr Z.add 0 (<[i := y]> l)).
    change (foldr Z.add 0 (a :: l)) with (a + foldr Z.add 0 l).
    rewrite (IH i H). lia.
Qed.

Lemma Forall2_le_refl (l : list Z) : Forall2 Z.le l l.
Proof. induction l; constructor; [lia|assumption]. Qed.

Lemma Forall2_le_insert (l : list Z) (i : nat) (x y : Z) :
  l !! i = Some x -> x <= y -> Forall2 Z.le l (<[i := y]> l).
Proof.
  revert i. induction l as [|a l IH]; intros [|i] H Hxy; try discriminate H.
  - injection H as ->. cbn. constructor; [exact Hxy|apply Forall2_le_refl].
  - cbn. constructor; [lia|]. apply (IH i); assumption.
Qed.

Lemma Forall2_le_trans (a b c : list Z) :
  Forall2 Z.le a b -> Forall2 Z.le b c -> Forall2 Z.le a c.
Proof.
  intros Hab. revert c. induction Hab; intros c Hbc; inversion Hbc; subst;
    constructor; [lia|auto].
Qed.

Lemma Forall_nonneg_insert (l : list Z) (i : nat) (y : Z) :
  Forall (fun w => 0 <= w) l -> 0 <= y ->
  Forall (fun w => 0 <= w) (<[i := y]> l).
Proof.
  intros Hl Hy. revert i. induction Hl as [|a l Ha Hl IH]; intros [|i]; cbn;
    constructor; auto.
Qed.

Lemma winsAfter_grows (wins : list Z) (n : nat) :
  Forall2 Z.le wins (winsAfter wins n).
Proof.
  unfold winsAfter. destruct (_ && _) eqn:E; [|apply Forall2_le_refl].
  apply andb_prop in E. destruct E as [H0 Hlt].
  apply Z.leb_le in H0. apply Z.ltb_lt in Hlt.
  destruct (lookup_lt_is_Some_2 wins (Z.to_nat (Z.of_nat n - 1))) as [x Hx];
    [lia|].
  rewrite Hx. cbn. rewrite or_zero_id.
  apply (Forall2_le_insert _ _ x); [exact Hx|lia].
Qed.

Lemma winsAfter_accounted (wins : list Z) (n : nat) :
  length wins = 6%nat -> (1 <= n <= 6)%nat ->
  Forall (fun w => 0 <= w) wins ->
  length (winsAfter wins n) = 6%nat /\
  Forall (fun w => 0 <= w) (winsAfter wins n) /\
  sumZ (winsAfter wins n) = sumZ wins + 1.
Proof.
  intros Hlen Hn Hpos. unfold winsAfter.
  destruct (Z.leb_spec 0 (Z.of_nat n - 1)); [|lia].
  destruct (Z.ltb_spec (Z.of_nat n - 1) (Z.of_nat (length wins))); [|lia].
  cbn.
  destruct (lookup_lt_is_Some_2 wins (Z.to_nat (Z.of_nat n - 1))) as [x Hx];
    [lia|].
  rewrite Hx. cbn. rewrite or_zero_id.
  assert (Hx0 : 0 <= x).
  { rewrite Forall_forall in Hpos. apply Hpos.
    eapply list_elem_of_lookup_2. exact Hx. }
  split; [rewrite length_insert; exact Hlen|].
  split; [apply Forall_nonneg_insert; [exact Hpos|lia]|].
  rewrite (sumZ_insert _ _ x) by exact Hx. lia.
Qed.

(** The statistics after an accepted guess. *)
Lemma processValidGuess_userStats (value : num) (st : AppState num) :
  canGuess st = true ->
  let stats := AppState.userStats st in
  let n := S (length (guesses (AppState.gameState st))) in
  AppState.userStats (fst (processValidGuess value st))
    = if AppState.isArchiveMode st then stats
      else if isWin (createGuessObject value st)
      then {| numGames := numGames stats;
              numWins := numWins stats + 1;
              winsInNum := winsAfter (winsInNum stats) n;
              currentStreak := currentStreak stats + 1;
              maxStreak := Z.max (currentStreak stats + 1) (maxStreak stats) |}
      else if 6 <=? Z.of_nat n
      then {| numGames := numGames stats;
              numWins := numWins stats;
              winsInNum := winsInNum stats;
              currentStreak := 0;
              maxStreak := maxStreak stats |}
      else stats.
Proof.
  intros Hcan stats n. subst stats n. unfold isWin.
  destruct (GuessCloseness_eqb (closeness (createGuessObject value st))
              CSS_CLASSES.WIN) eqn:Hwin.
  - apply GuessCloseness_eqb_eq in Hwin.
    rewrite (processValidGuess_win value st Hcan Hwin).
    unfold setGameWon, winsAfter. cbn -[createGuessObject].
    destruct (AppState.isArchiveMode st); cbn -[createGuessObject];
      [reflexivity|].
    rewrite length_app. cbn [length]. rewrite Nat.add_1_r. reflexivity.
  - assert (Hno : closeness (createGuessObject value st) <> guess_win).
    { intros E. apply GuessCloseness_eqb_eq in E. unfold CSS_CLASSES.WIN in Hwin.
      congruence. }
    rewrite (processValidGuess_no_win value st Hcan Hno).
    destruct (6 <=? _); unfold setGameLost; cbn -[createGuessObject];
      destruct (AppState.isArchiveMode st); cbn -[createGuessObject];
      reflexivity.
Qed.

Lemma initializeGame_userStats (st : AppState num) :
  let stats := AppState.userStats st in
  AppState.userStats (initializeGame st)
    = if AppState.isArchiveMode st
         || (gameNumber (AppState.gameState st) =? AppState.gameNumber st)
      then stats
      else {| numGames := numGames stats + 1;
              numWins := numWins stats;
              winsInNum := winsInNum stats;
              currentStreak :=
                if hasWon (AppState.gameState st) then currentStreak stats else 0;
              maxStreak := maxStreak stats |}.
Proof.
  cbn zeta. unfold initializeGame.
  destruct (AppState.isArchiveMode st); cbn; [reflexivity|].
  destruct (_ =? _); cbn; [reflexivity|].
  destruct (hasWon (AppState.gameState st)); reflexivity.
Qed.

Lemma call_statsAccounted (c : ManagerCall num) (st : AppState num) :
  playerCall c = true ->
  statsAccounted (AppState.userStats st) ->
  statsAccounted (AppState.userStats (call st c)).
Proof.
  intros Hc Hacc. destruct c; try discriminate Hc; cbn -[processValidGuess].
  - exact Hacc.
  - exact Hacc.
  - exact Hacc.
  - rewrite initializeGame_userStats. destruct (_ || _); [exact Hacc|].
    destruct Hacc as (Hlen & Hpos & Hsum & H0 & Hcur & Hmax & Hg).
    unfold statsAccounted.
    cbn [numGames numWins winsInNum currentStreak maxStreak].
    split; [exact Hlen|]. split; [exact Hpos|].
    destruct (hasWon (AppState.gameState st)); repeat split; lia.
  - destruct (canGuess st) eqn:Hcan.
    2:{ rewrite processValidGuess_rejected by exact Hcan. exact Hacc. }
    rewrite (processValidGuess_userStats value st Hcan).
    destruct (canGuess_true st Hcan) as [_ Hn].
    destruct (AppState.isArchiveMode st); [exact Hacc|].
    destruct Hacc as (Hlen & Hpos & Hsum & H0 & Hcur & Hmax & Hg).
    destruct (isWin _).
    + destruct (winsAfter_accounted (winsInNum (AppState.userStats st))
                  (S (length (guesses (AppState.gameState st)))) Hlen
                  ltac:(lia) Hpos) as (Hlen' & Hpos' & Hsum').
      unfold statsAccounted.
      cbn [numGames numWins winsInNum currentStreak maxStreak].
      split; [exact Hlen'|]. split; [exact Hpos'|]. repeat split; lia.
    + destruct (6 <=? _); [|unfold statsAccounted; repeat split; auto].
      unfold statsAccounted.
      cbn [numGames numWins winsInNum currentStreak maxStreak].
      split; [exact Hlen|]. split; [exact Hpos|]. repeat split; lia.
Qed.

Lemma call_statsGrew (c : ManagerCall num) (st : AppState num) :
  statsGrew (AppState.userStats st) (AppState.userStats (call st c)).
Proof.
  assert (Hrefl : forall s, statsGrew s s).
  { intros s. unfold statsGrew. repeat split; try lia. apply Forall2_le_refl. }
  destruct c; cbn -[processValidGuess]; try apply Hrefl.
  - rewrite initializeGame_userStats. destruct (_ || _); [apply Hrefl|].
    unfold statsGrew. cbn. repeat split; try lia. apply Forall2_le_refl.
  - unfold setGameWon. cbn. destruct (AppState.isArchiveMode st); cbn;
      [apply Hrefl|].
    unfold statsGrew. cbn. repeat split; try lia.
    apply (winsAfter_grows (winsInNum (AppState.userStats st))
             (length (guesses (AppState.gameState st)))).
  - unfold setGameLost. destruct (AppState.isArchiveMode st); cbn;
      [apply Hrefl|].
    unfold statsGrew. cbn. repeat split; try lia. apply Forall2_le_refl.
  - destruct (canGuess st) eqn:Hcan.
    2:{ rewrite processValidGuess_rejected by exact Hcan. apply Hrefl. }
    rewrite (processValidGuess_userStats value st Hcan).
    destruct (AppState.isArchiveMode st); [apply Hrefl|].
    destruct (isWin _).
    + unfold statsGrew. cbn. repeat split; try lia. apply winsAfter_grows.
    + destruct (6 <=? _); [|apply Hrefl].
      unfold statsGrew. cbn. repeat split; try lia. apply Forall2_le_refl.
Qed.

End SoundStats.

(** X5. Starting from statistics that add up, whatever the player does, the
    statistics still add up: [winsInNum] keeps its six non-negative
    counters and their sum is [numWins], and
    [0 <= currentStreak <= maxStreak <= numWins]. *)
Theorem stats_stay_accounted :
  forall (num : Type) (NUM : JSNumber num) (l : list (ManagerCall num))
         (st : AppState num),
    forallb playerCall l = true ->
    statsAccounted (AppState.userStats st) ->
    statsAccounted (AppState.userStats (callAll l st)).
Proof.
  intros num NUM l. unfold callAll.
  induction l as [|c l IH]; intros st Hl Hacc; cbn in *.
  - exact Hacc.
  - apply andb_prop in Hl. destruct Hl as [Hc Hl].
    apply IH; [exact Hl|]. apply call_statsAccounted; assumption.
Qed.

(** X6. None of the calls that the game module makes on the state manager
    (the eight of [ManagerCall]: [toggleArchiveMode],
    [setSelectedGameNumber], [setProductData], [initializeGame], [addGuess],
    [setGameWon], [setGameLost] and [processGuess] with what it calls) ever
    lowers [numGames], [numWins], [maxStreak] or an entry of [winsInNum];
    only [currentStreak] can go down.  The public [updateUserStats], which
    could lower them, is reached through these calls only. *)
Theorem stats_never_decrease :
  forall (num : Type) (NUM : JSNumber num) (l : list (ManagerCall num))
         (st : AppState num),
    statsGrew (AppState.userStats st) (AppState.userStats (callAll l st)).
Proof.
  intros num NUM l. unfold callAll.
  induction l as [|c l IH]; intros st; cbn.
  - unfold statsGrew. repeat split; try lia. apply Forall2_le_refl.
  - specialize (IH (call st c)). pose proof (call_statsGrew c st) as H1.
    unfold statsGrew in *.
    destruct H1 as (A1 & B1 & C1 & D1). destruct IH as (A2 & B2 & C2 & D2).
    repeat split; try lia. eapply Forall2_le_trans; eassumption.
Qed.

Lemma stats_stay_accounted_witness :
  let l := [ CallInitializeGame; CallSetProductData (Exact.Fin 100);
             CallProcessGuess (Exact.Fin 50); CallProcessGuess (Exact.Fin 97);
             CallToggleArchiveMode 9; CallInitializeGame;
             CallProcessGuess (Exact.Fin 100) ] in
  let st := calculateGameNumber 9 (@initialState Exact.number _ 9) in
  forallb playerCall l = true /\
  statsAccounted (AppState.userStats st) /\
  statsAccounted (AppState.userStats (callAll l st)).
Proof.
  assert (H0 : statsAccounted
                 (AppState.userStats
                    (calculateGameNumber 9 (@initialState Exact.number _ 9)))).
  { unfold statsAccounted. cbn. repeat split; try lia.
    repeat constructor; lia. }
  split; [reflexivity|]. split; [exact H0|].
  apply (stats_stay_accounted Exact.number _
           [ CallInitializeGame; CallSetProductData (Exact.Fin 100);
             CallProcessGuess (Exact.Fin 50); CallProcessGuess (Exact.Fin 97);
             CallToggleArchiveMode 9; CallInitializeGame;
             CallProcessGuess (Exact.Fin 100) ]
           (calculateGameNumber 9 (initialState 9))); [reflexivity|exact H0].
Defined.

(** ** Archive navigation *)

Section ExactIntegers.

Lemma Qle_bool_inject_Z (a b : Z) :
  Qle_bool (inject_Z a) (inject_Z b) = (a <=? b).
Proof. unfold Qle_bool. cbn. rewrite !Z.mul_1_r. reflexivity. Qed.

Lemma Qeq_bool_inject_Z (a b : Z) :
  Qeq_bool (inject_Z a) (inject_Z b) = (a =? b).
Proof. unfold Qeq_bool. cbn. rewrite !Z.mul_1_r. reflexivity. Qed.

(** On whole numbers the validation is the range test. *)
Lemma validateGameNumber_integers (n max : Z) :
  validateGameNumber (inl (Exact.Fin (inject_Z n))) (Exact.Fin (inject_Z max))
    = if (1 <=? n) && (n <=? max)
      then Valid (Exact.Fin (inject_Z n)) None
      else Invalid (GAME_NUMBER_RANGE (Exact.Fin (inject_Z max))).
Proof.
  unfold validateGameNumber. cbn. unfold Exact.Qlt_bool.
  change (inject_Z 1) with (inject_Z 1).
  rewrite !Qle_bool_inject_Z.
  destruct (1 <=? n); destruct (n <=? max); reflexivity.
Qed.

(** What the constructor reads back of a state the manager persisted:
    everything but a selected game number of 0, which comes back as 1; the
    product is gone, and the game number is that of the mode. *)
Lemma init_persisted {num : Type} {NUM : JSNumber num} (today : Z)
    (st : AppState num) :
  let selected :=
    if AppState.selectedGameNumber st =? 0 then 1
    else AppState.selectedGameNumber st in
  init today (persisted st)
    = AppState.mk (AppState.isArchiveMode st) selected
        (if AppState.isArchiveMode st then selected else today)
        (num_of_Z 0) (AppState.gameState st) (AppState.userStats st).
Proof.
  destruct st as [mode sel game price [gn gl hw] [ng nw wins cs ms]].
  reflexivity.
Qed.

(** The reload keeps the mode and the selection (0 apart); in archive mode
    it keeps the statistics and, when the data of the selected game is
    found, replaces the session by an empty one for that game. *)
Lemma reload_effect {num : Type} {NUM : JSNumber num}
    (games : Z -> option num) (today : Z) (st : AppState num) :
  let st' := reload games today st in
  let selected :=
    if AppState.selectedGameNumber st =? 0 then 1
    else AppState.selectedGameNumber st in
  AppState.isArchiveMode st' = AppState.isArchiveMode st /\
  AppState.selectedGameNumber st' = selected /\
  AppState.gameNumber st'
    = (if AppState.isArchiveMode st then selected else today) /\
  (AppState.isArchiveMode st = true ->
   AppState.userStats st' = AppState.userStats st /\
   match games selected with
   | Some price =>
       AppState.productPrice st' = price /\
       AppState.gameState st'
         = {| gameNumber := selected; guesses := []; hasWon := false |}
   | None => AppState.gameState st' = AppState.gameState st
   end).
Proof.
  cbn zeta. unfold reload. rewrite init_persisted.
  destruct st as [mode sel game price [gn gl hw] us]. cbn.
  set (selected := if sel =? 0 then 1 else sel).
  unfold startGame. cbn.
  destruct mode; cbn.
  - destruct (games selected) as [p|]; cbn; repeat split; auto.
  - destruct (games today) as [p|]; cbn.
    + unfold initializeGame. cbn.
      destruct (gn =? today); cbn; [repeat split; auto; discriminate|].
      destruct hw; cbn; repeat split; auto; discriminate.
    + repeat split; auto; discriminate.
Qed.

Lemma navigateArchiveGame_selected (games : Z -> option Exact.number)
    (today direction : Z) (st : AppState Exact.number) :
  let target := AppState.selectedGameNumber st + direction in
  navigateArchiveGame games today direction st
    = if (1 <=? target) && (target <=? today)
      then reload games today (setSelectedGameNumber target st) else st.
Proof.
  cbn zeta. unfold navigateArchiveGame.
  change (@num_of_Z Exact.number _) with (fun z => Exact.Fin (inject_Z z)).
  cbn beta. rewrite validateGameNumber_integers.
  destruct (Z.leb_spec 1 (AppState.selectedGameNumber st + direction));
    destruct (_ <=? today); cbn; try reflexivity.
  unfold truthy. cbn.
  change (Qeq_bool (inject_Z (AppState.selectedGameNumber st + direction))
            (inject_Z 0))
    with (Qeq_bool (inject_Z (AppState.selectedGameNumber st + direction))
            (inject_Z 0)).
  rewrite Qeq_bool_inject_Z.
  destruct (Z.eqb_spec (AppState.selectedGameNumber st + direction) 0);
    [lia|reflexivity].
Qed.

(** One step of the navigation: nothing happens out of range; in range the
    selection moves and the page is loaded again. *)
Lemma navigateArchiveGame_effect (games : Z -> option Exact.number)
    (today direction : Z) (st : AppState Exact.number) :
  let target := AppState.selectedGameNumber st + direction in
  let st' := navigateArchiveGame games today direction st in
  (1 <= target <= today ->
   AppState.isArchiveMode st' = AppState.isArchiveMode st /\
   AppState.selectedGameNumber st' = target /\
   (AppState.isArchiveMode st = true ->
    AppState.gameNumber st' = target /\
    AppState.userStats st' = AppState.userStats st /\
    match games target with
    | Some price =>
        AppState.productPrice st' = price /\
        AppState.gameState st'
          = {| gameNumber := target; guesses := []; hasWon := false |}
    | None => AppState.gameState st' = AppState.gameState st
    end)) /\
  (~ 1 <= target <= today -> st' = st).
Proof.
  cbn zeta. rewrite navigateArchiveGame_selected.
  set (target := AppState.selectedGameNumber st + direction).
  split.
  - intros [Hlo Hhi].
    destruct (Z.leb_spec 1 target); [|lia].
    destruct (Z.leb_spec target today); [|lia]. cbn [andb].
    destruct (reload_effect games today (setSelectedGameNumber target st))
      as (Hmode & Hsel & Hgame & Harchive).
    assert (Hst : AppState.isArchiveMode (setSelectedGameNumber target st)
                  = AppState.isArchiveMode st) by reflexivity.
    assert (Hnz : (if AppState.selectedGameNumber
                        (setSelectedGameNumber target st) =? 0
                   then 1
                   else AppState.selectedGameNumber
                          (setSelectedGameNumber target st)) = target).
    { change (AppState.selectedGameNumber (setSelectedGameNumber target st))
        with target.
      destruct (Z.eqb_spec target 0); [lia|reflexivity]. }
    rewrite Hnz in *. rewrite Hst in *.
    split; [exact Hmode|]. split; [exact Hsel|].
    intros Ha. rewrite Ha in Hgame. split; [exact Hgame|].
    destruct (Harchive Ha) as [Hus Hgs]. split; [exact Hus|exact Hgs].
  - intros Hout.
    destruct (Z.leb_spec 1 target); destruct (Z.leb_spec target today);
      cbn [andb]; try reflexivity.
    lia.
Qed.

End ExactIntegers.



(** X8. The navigation buttons agree with the navigation: a disabled
    "Previous Day" or "Next Day" button would do nothing if it were
    pressed, and when the selected game number lies between 1 and today's
    number an enabled button moves the selection by exactly one day. *)
Theorem navigation_buttons :
  forall (games : Z -> option Exact.number) (today : Z)
         (st : AppState Exact.number),
    (prevDisabled st = true -> navigateArchiveGame games today (-1) st = st) /\
    (nextDisabled today st = true -> navigateArchiveGame games today 1 st = st) /\
    (1 <= AppState.selectedGameNumber st <= today ->
     (prevDisabled st = false ->
      AppState.selectedGameNumber (navigateArchiveGame games today (-1) st)
        = AppState.selectedGameNumber st - 1) /\
     (nextDisabled today st = false ->
      AppState.selectedGameNumber (navigateArchiveGame games today 1 st)
        = AppState.selectedGameNumber st + 1)).
Proof.
  intros games today st. unfold prevDisabled, nextDisabled.
  destruct (navigateArchiveGame_effect games today (-1) st) as [Hprev Hprev'].
  destruct (navigateArchiveGame_effect games today 1 st) as [Hnext Hnext'].
  cbn zeta in *.
  split; [|split].
  - intros Hd. apply Z.leb_le in Hd. apply Hprev'. lia.
  - intros Hd. apply Z.leb_le in Hd. apply Hnext'. lia.
  - intros Hr. split; intros Hd; apply Z.leb_gt in Hd.
    + destruct Hprev as (_ & Hsel & _); [lia|]. rewrite Hsel. lia.
    + destruct Hnext as (_ & Hsel & _); [lia|]. exact Hsel.
Qed.

Lemma navigation_buttons_witness :
  let games := fun _ : Z => Some (Exact.Fin 100) in
  let st := setSelectedGameNumber 5 (@initialState Exact.number _ 5) in
  nextDisabled 5 st = true /\ prevDisabled st = false /\
  navigateArchiveGame games 5 1 st = st /\
  AppState.selectedGameNumber (navigateArchiveGame games 5 (-1) st) = 5 - 1.
Proof.
  pose (games := fun _ : Z => Some (Exact.Fin 100)).
  pose (st := setSelectedGameNumber 5 (@initialState Exact.number _ 5)).
  assert (Hn : nextDisabled 5 st = true) by reflexivity.
  assert (Hp : prevDisabled st = false) by reflexivity.
  assert (Hr : 1 <= AppState.selectedGameNumber st <= 5) by (cbn; lia).
  destruct (navigation_buttons games 5 st) as (_ & Hnext & Hin).
  split; [exact Hn|]. split; [exact Hp|]. split; [exact (Hnext Hn)|].
  exact (proj1 (Hin Hr) Hp).
Defined.

(** ** Game numbers and dates *)

Section GameDates.

Lemma MS_PER_DAY_pos : 0 < dateUtils.MS_PER_DAY.
Proof. reflexivity. Qed.

(** The start date is midnight of day 19621 of the local calendar. *)
Lemma start_is_local_midnight (tzOffset : Z) :
  GAME_CONFIG.COSTCODLE_START_DATE tzOffset - tzOffset * 60000
    = 19621 * dateUtils.MS_PER_DAY.
Proof.
  unfold GAME_CONFIG.COSTCODLE_START_DATE, GAME_CONFIG.START_DATE_UTC,
    dateUtils.MS_PER_DAY. lia.
Qed.

Lemma getGameNumber_by_day (tzOffset t : Z) :
  dateUtils.getGameNumber tzOffset t
    = dateUtils.localDay tzOffset t - 19621
      + (if dateUtils.atMidnight tzOffset t then 0 else 1).
Proof.
  unfold dateUtils.getGameNumber, dateUtils.localDay, dateUtils.atMidnight.
  rewrite Math_ceil_div_floor by apply MS_PER_DAY_pos.
  pose proof (start_is_local_midnight tzOffset) as Hs.
  replace (t - GAME_CONFIG.COSTCODLE_START_DATE tzOffset)
    with ((t - tzOffset * 60000) + (-19621) * dateUtils.MS_PER_DAY) by lia.
  rewrite Z.div_add, Z.mod_add by (unfold dateUtils.MS_PER_DAY; lia).
  destruct ((t - tzOffset * 60000) mod dateUtils.MS_PER_DAY =? 0); lia.
Qed.

Lemma targetDate_day (tzOffset n : Z) :
  dateUtils.localDay tzOffset (calendar.targetDate tzOffset n) = 19621 + n - 1 /\
  dateUtils.atMidnight tzOffset (calendar.targetDate tzOffset n) = true.
Proof.
  unfold dateUtils.localDay, dateUtils.atMidnight, calendar.targetDate.
  pose proof (start_is_local_midnight tzOffset) as Hs.
  replace (GAME_CONFIG.COSTCODLE_START_DATE tzOffset
           + (n - 1) * dateUtils.MS_PER_DAY - tzOffset * 60000)
    with (0 + (19621 + n - 1) * dateUtils.MS_PER_DAY) by lia.
  rewrite Z.div_add, Z.mod_add by (unfold dateUtils.MS_PER_DAY; lia).
  change (0 / dateUtils.MS_PER_DAY) with 0.
  split; [lia|reflexivity].
Qed.

Lemma cellDate_day (tzOffset day : Z) :
  dateUtils.localDay tzOffset (calendar.cellDate tzOffset day) = day /\
  dateUtils.atMidnight tzOffset (calendar.cellDate tzOffset day) = true.
Proof.
  unfold dateUtils.localDay, dateUtils.atMidnight, calendar.cellDate.
  replace (day * dateUtils.MS_PER_DAY + tzOffset * 60000 - tzOffset * 60000)
    with (0 + day * dateUtils.MS_PER_DAY) by lia.
  rewrite Z.div_add, Z.mod_add by (unfold dateUtils.MS_PER_DAY; lia).
  change (0 / dateUtils.MS_PER_DAY) with 0.
  split; [lia|reflexivity].
Qed.

End GameDates.

(** X9. The date shown for today's game is today's date: the date that
    [getDateForGameNumber] puts into words for the number [getGameNumber]
    returns falls on the calendar day of the clock reading, except at
    midnight sharp, where it is the day before.  Conversely every instant
    of the day after the midnight that starts the date of game [n], up to
    and including the next midnight, has game number [n]. *)
Theorem game_date_round_trip :
  forall tzOffset now : Z,
    dateUtils.localDay tzOffset
      (calendar.targetDate tzOffset (dateUtils.getGameNumber tzOffset now))
      = dateUtils.localDay tzOffset now
        - (if dateUtils.atMidnight tzOffset now then 1 else 0) /\
    (forall n t : Z,
        calendar.targetDate tzOffset n < t
          <= calendar.targetDate tzOffset n + 86400000 ->
        dateUtils.getGameNumber tzOffset t = n).
Proof.
  intros tzOffset now. split.
  - rewrite (proj1 (targetDate_day _ _)), getGameNumber_by_day.
    destruct (dateUtils.atMidnight tzOffset now); lia.
  - intros n t Ht. unfold dateUtils.getGameNumber.
    apply Math_ceil_div_unique; [apply MS_PER_DAY_pos|].
    unfold calendar.targetDate, dateUtils.MS_PER_DAY in *. lia.
Qed.

Lemma game_date_round_trip_witness :
  calendar.targetDate 0 10 < 1696118400000 <= calendar.targetDate 0 10 + 86400000 /\
  dateUtils.getGameNumber 0 1696118400000 = 10.
Proof.
  assert (H : calendar.targetDate 0 10 < 1696118400000
              <= calendar.targetDate 0 10 + 86400000)
    by (vm_compute; split; [reflexivity|discriminate]).
  split; [exact H|].
  exact (proj2 (game_date_round_trip 0 0) 10 1696118400000 H).
Defined.

(** X10. The calendar is one day off.  The cell of a calendar day selects
    the game whose date is the day before; the cell of today selects the
    game before today's; and the first disabled cell is the day after
    tomorrow, so that tomorrow's cell can be clicked and selects today's
    game.  (The clock is not at midnight sharp.) *)
Theorem calendar_cells_one_day_off :
  forall tzOffset now day : Z,
    dateUtils.localDay tzOffset
      (calendar.targetDate tzOffset (calendar.cellGameNumber tzOffset day))
      = day - 1 /\
    (dateUtils.atMidnight tzOffset now = false ->
     calendar.cellGameNumber tzOffset (dateUtils.localDay tzOffset now)
       = dateUtils.getGameNumber tzOffset now - 1 /\
     calendar.cellGameNumber tzOffset (dateUtils.localDay tzOffset now + 1)
       = dateUtils.getGameNumber tzOffset now /\
     (calendar.cellDisabled tzOffset now day = true <->
      dateUtils.localDay tzOffset now + 1 < day)).
Proof.
  intros tzOffset now day.
  assert (Hcell : forall d, calendar.cellGameNumber tzOffset d = d - 19621).
  { intros d. unfold calendar.cellGameNumber.
    change (calendar.dateToGameNumber tzOffset (calendar.cellDate tzOffset d))
      with (dateUtils.getGameNumber tzOffset (calendar.cellDate tzOffset d)).
    rewrite getGameNumber_by_day.
    destruct (cellDate_day tzOffset d) as [-> ->]. lia. }
  split.
  - rewrite (proj1 (targetDate_day _ _)), Hcell. lia.
  - intros Hnow. unfold calendar.cellDisabled.
    rewrite !Hcell, getGameNumber_by_day, Hnow.
    split; [lia|]. split; [lia|].
    rewrite Z.ltb_lt. lia.
Qed.

Lemma calendar_cells_one_day_off_witness :
  dateUtils.atMidnight 0 1696161600000 = false /\
  calendar.cellGameNumber 0 (dateUtils.localDay 0 1696161600000)
    = dateUtils.getGameNumber 0 1696161600000 - 1.
Proof.
  assert (H : dateUtils.atMidnight 0 1696161600000 = false) by reflexivity.
  split; [exact H|].
  exact (proj1 (proj2 (calendar_cells_one_day_off 0 1696161600000 0) H)).
Defined.

(** ** Relative times *)

(** X11. [formatRelativeTime] says "just now" for everything less than a
    minute old, dates in the future included.  Otherwise it counts whole
    minutes below an hour, whole hours below a day, and whole days from
    then on; the count shown is never 0, never 60 minutes and never 24
    hours, and the unit is in the plural exactly when the count is not
    1. *)
Theorem formatRelativeTime_spec :
  forall now date : Z,
    let age := now - date in
    let text := relativeTime.formatRelativeTime now date in
    let counted (k : Z) (unit : string) :=
      (integerToString k ++ " " ++ unit
       ++ (if (k =? 1)%Z then EmptyString else "s") ++ " ago")%string in
    (age < 60000 -> text = "just now"%string) /\
    (60000 <= age < 3600000 ->
       1 <= age / 60000 <= 59 /\ text = counted (age / 60000) "minute"%string) /\
    (3600000 <= age < 86400000 ->
       1 <= age / 3600000 <= 23 /\ text = counted (age / 3600000) "hour"%string) /\
    (86400000 <= age ->
       1 <= age / 86400000 /\ text = counted (age / 86400000) "day"%string).
Proof.
  intros now date age text counted. subst text counted.
  unfold relativeTime.formatRelativeTime. fold age.
  change (1000 * 60) with 60000.
  assert (Hh : age / 60000 / 60 = age / 3600000)
    by (rewrite Z.div_div by lia; reflexivity).
  assert (Hd : age / 60000 / 60 / 24 = age / 86400000)
    by (rewrite !Z.div_div by lia; reflexivity).
  rewrite Hd, Hh.
  assert (Hplural : forall k, 1 <= k -> (1 <? k) = negb (k =? 1)).
  { intros k Hk. destruct (Z.ltb_spec 1 k); destruct (Z.eqb_spec k 1);
      cbn; lia || reflexivity. }
  repeat split.
  - intros Hage. destruct (Z.ltb_spec (age / 60000) 1) as [_|Hge];
      [reflexivity|].
    exfalso. assert (age / 60000 <= 0); [|lia].
    apply Z.lt_succ_r. apply Z.div_lt_upper_bound; lia.
  - apply Z.div_le_lower_bound; lia.
  - assert (age / 60000 < 60); [|lia]. apply Z.div_lt_upper_bound; lia.
  - destruct H as [Hlo Hhi].
    assert (H1 : 1 <= age / 60000) by (apply Z.div_le_lower_bound; lia).
    assert (H2 : age / 60000 < 60) by (apply Z.div_lt_upper_bound; lia).
    destruct (Z.ltb_spec (age / 60000) 1); [lia|].
    destruct (Z.ltb_spec (age / 60000) 60); [|lia].
    rewrite (Hplural _ H1). destruct (age / 60000 =? 1); reflexivity.
  - apply Z.div_le_lower_bound; lia.
  - assert (age / 3600000 < 24); [|lia]. apply Z.div_lt_upper_bound; lia.
  - destruct H as [Hlo Hhi].
    assert (H1 : 60 <= age / 60000) by (apply Z.div_le_lower_bound; lia).
    assert (H2 : 1 <= age / 3600000) by (apply Z.div_le_lower_bound; lia).
    assert (H3 : age / 3600000 < 24) by (apply Z.div_lt_upper_bound; lia).
    destruct (Z.ltb_spec (age / 60000) 1); [lia|].
    destruct (Z.ltb_spec (age / 60000) 60); [lia|].
    destruct (Z.ltb_spec (age / 3600000) 24); [|lia].
    rewrite (Hplural _ H2). destruct (age / 3600000 =? 1); reflexivity.
  - apply Z.div_le_lower_bound; lia.
  - assert (H1 : 60 <= age / 60000) by (apply Z.div_le_lower_bound; lia).
    assert (H2 : 24 <= age / 3600000) by (apply Z.div_le_lower_bound; lia).
    assert (H3 : 1 <= age / 86400000) by (apply Z.div_le_lower_bound; lia).
    destruct (Z.ltb_spec (age / 60000) 1); [lia|].
    destruct (Z.ltb_spec (age / 60000) 60); [lia|].
    destruct (Z.ltb_spec (age / 3600000) 24); [lia|].
    rewrite (Hplural _ H3). destruct (age / 86400000 =? 1); reflexivity.
Qed.

Lemma formatRelativeTime_spec_witness :
  60000 <= 1696161600000 - 1696160700000 < 3600000 /\
  relativeTime.formatRelativeTime 1696161600000 1696160700000
    = "15 minutes ago"%string.
Proof.
  assert (H : 60000 <= 1696161600000 - 1696160700000 < 3600000) by lia.
  split; [exact H|].
  exact (proj2 (proj1 (proj2
           (formatRelativeTime_spec 1696161600000 1696160700000)) H)).
Defined.

(** ** The validation of a price *)

Section PriceText.
Import priceText.

Lemma isForbidden_not_separator (c : ascii) :
  isForbidden c = true -> isSeparator c = false /\ isStrWhiteSpaceChar c = false.
Proof.
  unfold isForbidden, isSeparator. intros H.
  apply andb_prop in H. destruct H as [_ H]. apply negb_true_iff in H.
  apply orb_false_elim in H. destruct H as [_ H].
  split; [exact H|].
  apply orb_false_elim in H. destruct H as [_ H]. exact H.
Qed.

Lemma hasForbidden_removeSeparators (s : string) :
  hasForbidden (removeSeparators s) = hasForbidden s.
Proof.
  induction s as [|c s IH]; cbn; [reflexivity|].
  destruct (isSeparator c) eqn:E; cbn; rewrite IH.
  - unfold isForbidden. rewrite E, !orb_true_r, andb_false_r. reflexivity.
  - reflexivity.
Qed.

Lemma isForbidden_whiteSpace (c : ascii) :
  isStrWhiteSpaceChar c = true -> isForbidden c = false.
Proof.
  intros H. unfold isForbidden, isSeparator.
  rewrite H, !orb_true_r, andb_false_r. reflexivity.
Qed.

Lemma hasForbidden_skipWhiteSpace (s : string) :
  hasForbidden (skipWhiteSpace s) = hasForbidden s.
Proof.
  induction s as [|c s IH]; cbn; [reflexivity|].
  destruct (isStrWhiteSpaceChar c) eqn:E; cbn; [|reflexivity].
  rewrite IH, (isForbidden_whiteSpace c E). reflexivity.
Qed.

Lemma hasForbidden_trimEnd (s : string) :
  hasForbidden (trimEnd s) = hasForbidden s.
Proof.
  induction s as [|c s IH]; cbn; [reflexivity|].
  destruct (trimEnd s) as [|c' s'] eqn:E.
  - rewrite <- IH. destruct (isStrWhiteSpaceChar c) eqn:Ec; cbn.
    + rewrite (isForbidden_whiteSpace c Ec). reflexivity.
    + reflexivity.
  - cbn in *. rewrite IH. reflexivity.
Qed.

Lemma hasForbidden_clean (s : string) : hasForbidden (clean s) = hasForbidden s.
Proof.
  unfold clean, trim.
  rewrite hasForbidden_removeSeparators, hasForbidden_trimEnd.
  apply hasForbidden_skipWhiteSpace.
Qed.

Lemma isDigit_not_forbidden (c : ascii) : isDigit c = true -> isForbidden c = false.
Proof. intros H. unfold isForbidden. rewrite H. apply andb_false_r. Qed.

Lemma allDigits_hasForbidden (s : string) :
  allDigits s = true -> hasForbidden s = false.
Proof.
  induction s as [|c s IH]; cbn; [reflexivity|]. intros H.
  apply andb_prop in H. destruct H as [Hc Hs].
  rewrite (isDigit_not_forbidden c Hc), (IH Hs). reflexivity.
Qed.

Lemma hasForbidden_dropDigits (s : string) :
  hasForbidden (dropDigits s) = hasForbidden s.
Proof.
  induction s as [|c s IH]; cbn; [reflexivity|].
  destruct (isDigit c) eqn:E; cbn; [|reflexivity].
  rewrite IH, (isDigit_not_forbidden c E). reflexivity.
Qed.

Lemma matchesNumber_hasForbidden (s : string) :
  matchesNumber s = true -> hasForbidden s = false.
Proof.
  unfold matchesNumber. intros H. rewrite <- hasForbidden_dropDigits.
  destruct (dropDigits s) as [|c rest]; [reflexivity|].
  apply andb_prop in H. destruct H as [Hc Hrest]. cbn.
  rewrite (allDigits_hasForbidden rest Hrest).
  unfold isForbidden. rewrite Hc, orb_true_r. cbn.
  rewrite andb_false_r. reflexivity.
Qed.

End PriceText.

(** X12. A price that contains any ASCII character other than digits, the
    decimal point, the dollar sign, the comma and white space is rejected as
    not a number, wherever the character stands and whatever the
    arithmetic: a minus sign, a letter or an exponent never gets through. *)
Theorem validatePriceInput_rejects_other_characters :
  forall (num : Type) (NUM : JSNumber num) (TEXT : JSNumberText num)
         (input : string),
    priceText.hasForbidden input = true ->
    validatePriceInput input = Invalid INVALID_NUMBER.
Proof.
  intros num NUM TEXT input H. unfold validatePriceInput.
  destruct (String.eqb_spec input EmptyString) as [->|_]; [discriminate H|].
  fold (priceText.clean input).
  destruct (priceText.matchesNumber (priceText.clean input)) eqn:E;
    [|reflexivity].
  apply matchesNumber_hasForbidden in E.
  rewrite hasForbidden_clean in E. congruence.
Qed.

Lemma validatePriceInput_rejects_other_characters_witness :
  priceText.hasForbidden " $-5.00" = true /\
  @validatePriceInput Binary64.number _ _ " $-5.00" = Invalid INVALID_NUMBER.
Proof.
  split; [reflexivity|].
  apply (validatePriceInput_rejects_other_characters Binary64.number _ _ " $-5.00").
  reflexivity.
Defined.

Section Cleaning.
Import priceText.

Lemma hasSeparator_removeSeparators (s : string) :
  hasSeparator (removeSeparators s) = false.
Proof.
  induction s as [|c s IH]; cbn; [reflexivity|].
  destruct (isSeparator c) eqn:E; cbn; [exact IH|]. rewrite E, IH. reflexivity.
Qed.

Lemma removeSeparators_id (s : string) :
  hasSeparator s = false -> removeSeparators s = s.
Proof.
  induction s as [|c s IH]; cbn; [reflexivity|]. intros H.
  apply orb_false_elim in H. destruct H as [Hc Hs].
  rewrite Hc, (IH Hs). reflexivity.
Qed.

Lemma isSeparator_whiteSpace (c : ascii) :
  isSeparator c = false -> isStrWhiteSpaceChar c = false.
Proof.
  unfold isSeparator. intros H. apply orb_false_elim in H. tauto.
Qed.

Lemma skipWhiteSpace_id (s : string) :
  hasSeparator s = false -> skipWhiteSpace s = s.
Proof.
  destruct s as [|c s]; cbn; [reflexivity|]. intros H.
  apply orb_false_elim in H. destruct H as [Hc _].
  rewrite (isSeparator_whiteSpace c Hc). reflexivity.
Qed.

Lemma trimEnd_id (s : string) : hasSeparator s = false -> trimEnd s = s.
Proof.
  induction s as [|c s IH]; cbn; [reflexivity|]. intros H.
  apply orb_false_elim in H. destruct H as [Hc Hs].
  rewrite (IH Hs). destruct s; [|reflexivity].
  rewrite (isSeparator_whiteSpace c Hc). reflexivity.
Qed.

Lemma clean_idempotent (s : string) : clean (clean s) = clean s.
Proof.
  pose proof (hasSeparator_removeSeparators (trim s)) as H.
  fold (clean s) in H. unfold clean at 1, trim.
  rewrite (skipWhiteSpace_id _ H), (trimEnd_id _ H).
  apply removeSeparators_id, H.
Qed.

End Cleaning.

(** X13. Dollar signs, commas and white space do not matter: a price is
    validated exactly as the text that is left when they are taken out
    (provided something is left), with the same value, the same formatted
    text or the same error, whatever the arithmetic. *)
Theorem validatePriceInput_ignores_separators :
  forall (num : Type) (NUM : JSNumber num) (TEXT : JSNumberText num)
         (input : string),
    priceText.clean input <> EmptyString ->
    validatePriceInput input = validatePriceInput (priceText.clean input).
Proof.
  intros num NUM TEXT input Hne. unfold validatePriceInput.
  destruct (String.eqb_spec input EmptyString) as [->|_];
    [exfalso; apply Hne; reflexivity|].
  destruct (String.eqb_spec (priceText.clean input) EmptyString) as [E|_];
    [contradiction|].
  fold (priceText.clean input). fold (priceText.clean (priceText.clean input)).
  rewrite clean_idempotent. reflexivity.
Qed.

Lemma validatePriceInput_ignores_separators_witness :
  priceText.clean " $1,234.56 " <> EmptyString /\
  @validatePriceInput Binary64.number _ _ " $1,234.56 "
    = validatePriceInput "1234.56".
Proof.
  assert (H : priceText.clean " $1,234.56 " <> EmptyString)
    by (cbv; discriminate).
  split; [exact H|].
  exact (validatePriceInput_ignores_separators Binary64.number _ _
           " $1,234.56 " H).
Defined.

Section DecimalText.
Import priceText.

Lemma digit_of_digitChar (d : Z) :
  0 <= d <= 9 -> isDigit (digitChar d) = true /\ digitValue (digitChar d) = d.
Proof.
  intros Hd. unfold isDigit, digitValue, digitChar.
  rewrite nat_ascii_embedding by lia.
  split; [|lia].
  apply andb_true_intro. split; apply Nat.leb_le; lia.
Qed.

Lemma isDigit_not_separator (c : ascii) :
  isDigit c = true -> isSeparator c = false /\ Ascii.eqb c "." = false.
Proof.
  destruct c as [[] [] [] [] [] [] [] []]; cbn; intros H;
    try discriminate H; split; reflexivity.
Qed.

Lemma allDigits_hasSeparator (s : string) :
  allDigits s = true -> hasSeparator s = false.
Proof.
  induction s as [|c s IH]; cbn; [reflexivity|]. intros H.
  apply andb_prop in H. destruct H as [Hc Hs].
  rewrite (proj1 (isDigit_not_separator c Hc)), (IH Hs). reflexivity.
Qed.

Lemma hasSeparator_app (a b : string) :
  hasSeparator (a ++ b) = hasSeparator a || hasSeparator b.
Proof.
  induction a as [|c a IH]; cbn; [reflexivity|].
  rewrite IH, orb_assoc. reflexivity.
Qed.

Lemma allDigits_printDigits (fuel : nat) (n : Z) (rest : string) :
  0 <= n -> allDigits rest = true -> allDigits (printDigits fuel n rest) = true.
Proof.
  revert n rest. induction fuel as [|fuel IH]; intros n rest Hn Hrest; cbn;
    [exact Hrest|].
  assert (Hd : allDigits (String (digitChar (n mod 10)) rest) = true).
  { cbn. rewrite (proj1 (digit_of_digitChar (n mod 10)
                           ltac:(pose proof (Z.mod_pos_bound n 10); lia))).
    exact Hrest. }
  destruct (n / 10 =? 0); [exact Hd|].
  apply IH; [apply Z.div_pos; lia|exact Hd].
Qed.

Lemma printDigits_app (fuel : nat) (n : Z) (rest tail : string) :
  (printDigits fuel n rest ++ tail)%string = printDigits fuel n (rest ++ tail).
Proof.
  revert n rest. induction fuel as [|fuel IH]; intros n rest; cbn;
    [reflexivity|].
  destruct (n / 10 =? 0); [reflexivity|]. rewrite IH. reflexivity.
Qed.

Lemma printDigits_nonempty (fuel : nat) (n : Z) (rest : string) :
  printDigits (S fuel) n rest <> EmptyString.
Proof.
  assert (H : forall f m r, r <> EmptyString -> printDigits f m r <> EmptyString).
  { induction f as [|f IH]; intros m r Hr; cbn; [exact Hr|].
    destruct (m / 10 =? 0); [discriminate|apply IH; discriminate]. }
  cbn. destruct (n / 10 =? 0); [discriminate|apply H; discriminate].
Qed.

(** Reading back the digits that were printed. *)
Lemma digitsValue_printDigits (fuel : nat) (n : Z) (rest : string) :
  0 <= n < 2 ^ Z.of_nat fuel ->
  digitsValue (printDigits fuel n rest) 0 = digitsValue rest n.
Proof.
  revert n rest. induction fuel as [|fuel IH]; intros n rest Hn.
  - cbn in *. replace n with 0 by lia. reflexivity.
  - cbn [printDigits].
    pose proof (Z.mod_pos_bound n 10 ltac:(lia)) as Hmod.
    pose proof (Z.div_mod n 10 ltac:(lia)) as Hdiv.
    destruct (Z.eqb_spec (n / 10) 0) as [E|E].
    + cbn. rewrite (proj2 (digit_of_digitChar (n mod 10) ltac:(lia))).
      f_equal. lia.
    + rewrite IH.
      * cbn. rewrite (proj2 (digit_of_digitChar (n mod 10) ltac:(lia))).
        f_equal. lia.
      * rewrite Nat2Z.inj_succ, Z.pow_succ_r in Hn by lia.
        split; [apply Z.div_pos; lia|].
        apply Z.div_lt_upper_bound; lia.
Qed.

Lemma log2_fuel (n : Z) : 0 <= n -> n < 2 ^ Z.of_nat (S (Z.to_nat (Z.log2 n))).
Proof.
  intros Hn. rewrite Nat2Z.inj_succ, Z2Nat.id by apply Z.log2_nonneg.
  destruct (Z.eq_dec n 0) as [->|Hne]; [reflexivity|].
  apply Z.log2_spec. lia.
Qed.

Lemma allDigits_twoDigits (n : Z) : allDigits (twoDigits n) = true.
Proof.
  unfold twoDigits. cbn.
  rewrite (proj1 (digit_of_digitChar (n / 10 mod 10)
                    ltac:(pose proof (Z.mod_pos_bound (n / 10) 10); lia))),
          (proj1 (digit_of_digitChar (n mod 10)
                    ltac:(pose proof (Z.mod_pos_bound n 10); lia))).
  reflexivity.
Qed.

Lemma digitsValue_twoDigits (n hundreds : Z) :
  digitsValue (twoDigits n) hundreds
    = 100 * hundreds + 10 * (n / 10 mod 10) + n mod 10.
Proof.
  unfold twoDigits. cbn.
  rewrite (proj2 (digit_of_digitChar (n / 10 mod 10)
                    ltac:(pose proof (Z.mod_pos_bound (n / 10) 10); lia))),
          (proj2 (digit_of_digitChar (n mod 10)
                    ltac:(pose proof (Z.mod_pos_bound n 10); lia))).
  lia.
Qed.

Lemma takeDigits_app (d : string) (c : ascii) (rest : string) :
  allDigits d = true -> isDigit c = false ->
  takeDigits (d ++ String c rest) = d /\
  dropDigits (d ++ String c rest) = String c rest.
Proof.
  intros Hd Hc. induction d as [|x d IH]; cbn.
  - rewrite Hc. split; reflexivity.
  - cbn in Hd. apply andb_prop in Hd. destruct Hd as [Hx Hd].
    rewrite Hx. destruct (IH Hd) as [-> ->]. split; reflexivity.
Qed.

(** The shape of a price written with two decimals. *)
Lemma centsText_shape (cents : Z) :
  0 <= cents ->
  let whole := printDigits (S (Z.to_nat (Z.log2 (cents / 100)))) (cents / 100)
                 EmptyString in
  centsText cents = (whole ++ String "." (twoDigits cents))%string /\
  whole <> EmptyString /\ allDigits whole = true /\
  clean (centsText cents) = centsText cents /\
  takeDigits (centsText cents) = whole /\
  dropDigits (centsText cents) = String "." (twoDigits cents) /\
  digitsValue (whole ++ twoDigits cents) 0 = cents.
Proof.
  intros Hc whole.
  assert (Hwhole : allDigits whole = true)
    by (apply allDigits_printDigits; [apply Z.div_pos; lia|reflexivity]).
  assert (Heq : centsText cents = (whole ++ String "." (twoDigits cents))%string)
    by reflexivity.
  destruct (takeDigits_app whole "." (twoDigits cents) Hwhole eq_refl)
    as [Htake Hdrop].
  split; [exact Heq|]. split; [apply printDigits_nonempty|].
  split; [exact Hwhole|]. rewrite Heq. split; [|split; [exact Htake|split]].
  - assert (Hsep : hasSeparator (whole ++ String "." (twoDigits cents)) = false).
    { rewrite hasSeparator_app, (allDigits_hasSeparator _ Hwhole).
      change (hasSeparator (String "." (twoDigits cents)))
        with (isSeparator "." || hasSeparator (twoDigits cents)).
      rewrite (allDigits_hasSeparator _ (allDigits_twoDigits cents)).
      reflexivity. }
    unfold clean, trim.
    rewrite (skipWhiteSpace_id _ Hsep), (trimEnd_id _ Hsep).
    apply removeSeparators_id, Hsep.
  - exact Hdrop.
  - subst whole. rewrite printDigits_app.
    rewrite digitsValue_printDigits
      by (split; [apply Z.div_pos; lia|apply log2_fuel, Z.div_pos; lia]).
    cbn [String.append]. rewrite digitsValue_twoDigits.
    pose proof (Z.div_mod cents 10 ltac:(lia)).
    pose proof (Z.div_mod (cents / 10) 10 ltac:(lia)).
    assert (cents / 10 / 10 = cents / 100)
      by (rewrite Z.div_div by lia; reflexivity).
    lia.
Qed.

End DecimalText.

Section ExactPrices.
Import priceText.

Ltac eval_pow10 :=
  unfold Qdiv in *;
  change (/ inject_Z (10 ^ Z.of_nat 0))%Q with (1 # 1)%Q in *;
  change (/ inject_Z (10 ^ Z.of_nat 1))%Q with (1 # 10)%Q in *;
  change (/ inject_Z (10 ^ Z.of_nat 2))%Q with (1 # 100)%Q in *.

Lemma Qfloor_half (z : Z) : Qfloor (inject_Z z + (1 # 2)) = z.
Proof.
  unfold Qfloor, Qplus, inject_Z. cbn.
  symmetry. apply (Z.div_unique _ _ _ 1); lia.
Qed.

(** [toFixed(2)] of a whole number of cents. *)
Lemma toFixed2_cents (q : Q) (cents : Z) :
  0 <= cents -> (q * 100 == inject_Z cents)%Q ->
  num_toFixed2 (Exact.Fin q) = centsText cents.
Proof.
  intros Hc Hq.
  assert (Hq0 : (0 <= q)%Q).
  { assert (H : (0 <= q * 100)%Q).
    { rewrite Hq. change 0%Q with (inject_Z 0). rewrite <- Zle_Qle. exact Hc. }
    unfold Qle in *. cbn in *. lia. }
  assert (Hneg : Exact.Qneg q = false).
  { unfold Exact.Qneg. apply Z.ltb_ge. unfold Qle in Hq0. cbn in Hq0. lia. }
  cbn. rewrite Hneg. unfold toFixed2_Q, centsText.
  assert (Hn : Qfloor (Qabs q * 100 + (1 # 2)) = cents).
  { rewrite <- (Qfloor_half cents). apply Qfloor_comp.
    rewrite (Qabs_pos q Hq0), Hq. reflexivity. }
  rewrite Hn. reflexivity.
Qed.

Lemma allDigits_takeDigits (s : string) : allDigits (takeDigits s) = true.
Proof.
  induction s as [|c s IH]; cbn; [reflexivity|].
  destruct (isDigit c) eqn:E; cbn; [rewrite E; exact IH|reflexivity].
Qed.

Lemma allDigits_app (a b : string) :
  allDigits a = true -> allDigits b = true -> allDigits (a ++ b) = true.
Proof.
  intros Ha Hb. induction a as [|c a IH]; cbn; [exact Hb|].
  cbn in Ha. apply andb_prop in Ha. destruct Ha as [Hc Ha].
  rewrite Hc. apply IH, Ha.
Qed.

Lemma digitsValue_nonneg (s : string) :
  allDigits s = true -> forall acc, 0 <= acc -> 0 <= digitsValue s acc.
Proof.
  induction s as [|c s IH]; cbn; intros H acc Hacc; [exact Hacc|].
  apply andb_prop in H. destruct H as [Hc Hs]. apply IH; [exact Hs|].
  unfold isDigit in Hc. apply andb_prop in Hc. destruct Hc as [Hlo _].
  apply Nat.leb_le in Hlo. unfold digitValue. lia.
Qed.

Lemma matchesNumber_fraction (s : string) :
  matchesNumber s = true -> allDigits (fractionDigits s) = true.
Proof.
  unfold matchesNumber, fractionDigits.
  destruct (dropDigits s) as [|c rest]; [reflexivity|].
  intros H. apply andb_prop in H. tauto.
Qed.

(** An accepted price is a whole number of cents between 1 and 1000000. *)
Lemma validatePriceInput_accepted (input : string) (v : Exact.number)
    (f : option string) :
  validatePriceInput input = Valid v f ->
  exists (cents : Z) (q : Q),
    1 <= cents <= 1000000 /\ v = Exact.Fin q /\ (q * 100 == inject_Z cents)%Q /\
    f = Some (centsText cents).
Proof.
  unfold validatePriceInput.
  destruct (String.eqb input EmptyString); [discriminate|].
  fold (clean input). set (c := clean input).
  destruct (matchesNumber c) eqn:Hm; cbn [negb]; [|discriminate].
  assert (Hdigits : allDigits (takeDigits c ++ fractionDigits c) = true)
    by (apply allDigits_app;
        [apply allDigits_takeDigits|apply matchesNumber_fraction, Hm]).
  pose proof (digitsValue_nonneg _ Hdigits 0 ltac:(lia)) as Hm0.
  assert (Hparse : parseFloat c = Exact.NaN \/
            parseFloat c
            = Exact.Fin (inject_Z (digitsValue (takeDigits c ++ fractionDigits c) 0)
                         / inject_Z (10 ^ Z.of_nat (String.length (fractionDigits c))))%Q)
    by (unfold parseFloat; destruct (takeDigits c), (fractionDigits c); auto).
  destruct Hparse as [E|E]; rewrite E; [discriminate|].
  set (m := digitsValue (takeDigits c ++ fractionDigits c) 0) in *.
  set (k := String.length (fractionDigits c)) in *.
  cbn [num_isNaN Exact.number_JSNumber Exact.isNaN orb num_ltb Exact.ltb].
  unfold Exact.Qlt_bool.
  unfold MIN_PRICE, MAX_PRICE, MAX_DECIMAL_PLACES.
  cbn [num_of_decimal Exact_JSNumberText num_of_Z Exact.number_JSNumber
       num_ltb Exact.ltb].
  unfold Exact.Qlt_bool.
  destruct (Qle_bool (inject_Z 1 / inject_Z (10 ^ Z.of_nat 2))%Q _) eqn:Hmin;
    cbn [negb orb]; [|discriminate].
  destruct (Qle_bool _ (inject_Z 10000)) eqn:Hmax; cbn [negb]; [|discriminate].
  destruct (Nat.ltb_spec 2 k) as [|Hk]; [discriminate|].
  intros H. injection H as <- <-.
  apply Qle_bool_iff in Hmin, Hmax.
  assert (Hcases : k = 0%nat \/ k = 1%nat \/ k = 2%nat) by lia.
  destruct Hcases as [Hk0|[Hk1|Hk2]].
  - rewrite Hk0 in *. exists (m * 100), (inject_Z m / inject_Z (10 ^ Z.of_nat 0))%Q.
    assert (Hq : (inject_Z m / inject_Z (10 ^ Z.of_nat 0) * 100 == inject_Z (m * 100))%Q)
      by (eval_pow10; unfold Qeq; cbn; lia).
    eval_pow10. unfold Qle in Hmin, Hmax. cbn in Hmin, Hmax.
    split; [lia|]. split; [reflexivity|]. split; [exact Hq|].
    f_equal. apply toFixed2_cents; [lia|exact Hq].
  - rewrite Hk1 in *. exists (m * 10), (inject_Z m / inject_Z (10 ^ Z.of_nat 1))%Q.
    assert (Hq : (inject_Z m / inject_Z (10 ^ Z.of_nat 1) * 100 == inject_Z (m * 10))%Q)
      by (eval_pow10; unfold Qeq; cbn; lia).
    eval_pow10. unfold Qle in Hmin, Hmax. cbn in Hmin, Hmax.
    split; [lia|]. split; [reflexivity|]. split; [exact Hq|].
    f_equal. apply toFixed2_cents; [lia|exact Hq].
  - rewrite Hk2 in *. exists m, (inject_Z m / inject_Z (10 ^ Z.of_nat 2))%Q.
    assert (Hq : (inject_Z m / inject_Z (10 ^ Z.of_nat 2) * 100 == inject_Z m)%Q)
      by (eval_pow10; unfold Qeq; cbn; lia).
    eval_pow10. unfold Qle in Hmin, Hmax. cbn in Hmin, Hmax.
    split; [lia|]. split; [reflexivity|]. split; [exact Hq|].
    f_equal. apply toFixed2_cents; [lia|exact Hq].
Qed.

(** A price written with two decimals passes the validation, with its
    value and its own text. *)
Lemma validatePriceInput_centsText (cents : Z) :
  1 <= cents <= 1000000 ->
  validatePriceInput (centsText cents)
    = Valid (Exact.Fin (inject_Z cents / inject_Z (10 ^ Z.of_nat 2))%Q)
        (Some (centsText cents)).
Proof.
  intros Hc.
  destruct (centsText_shape cents ltac:(lia))
    as (Heq & Hne & Hwhole & Hclean & Htake & Hdrop & Hval).
  set (whole := printDigits (S (Z.to_nat (Z.log2 (cents / 100)))) (cents / 100)
                  EmptyString) in *.
  unfold validatePriceInput.
  destruct (String.eqb_spec (centsText cents) EmptyString) as [E|_].
  { rewrite Heq in E. destruct whole; [contradiction|discriminate E]. }
  fold (clean (centsText cents)). rewrite Hclean.
  assert (Hfrac : fractionDigits (centsText cents) = twoDigits cents)
    by (unfold fractionDigits; rewrite Hdrop; reflexivity).
  assert (Hmatch : matchesNumber (centsText cents) = true).
  { unfold matchesNumber. rewrite Hdrop. cbn [Ascii.eqb].
    rewrite allDigits_twoDigits. reflexivity. }
  rewrite Hmatch. cbn [negb].
  assert (Hparse : parseFloat (centsText cents)
                   = Exact.Fin (inject_Z cents / inject_Z (10 ^ Z.of_nat 2))%Q).
  { unfold parseFloat. rewrite Htake, Hfrac, Hval.
    destruct whole; [contradiction|reflexivity]. }
  rewrite Hparse, Hfrac.
  assert (Hq : (inject_Z cents / inject_Z (10 ^ Z.of_nat 2) * 100 == inject_Z cents)%Q)
    by (eval_pow10; unfold Qeq; cbn; lia).
  rewrite (toFixed2_cents _ cents ltac:(lia) Hq).
  cbn [num_isNaN Exact.number_JSNumber Exact.isNaN orb num_ltb Exact.ltb].
  unfold MIN_PRICE, MAX_PRICE, MAX_DECIMAL_PLACES.
  cbn [num_of_decimal Exact_JSNumberText num_of_Z Exact.number_JSNumber
       num_ltb Exact.ltb].
  unfold Exact.Qlt_bool.
  assert (Hmin : Qle_bool (inject_Z 1 / inject_Z (10 ^ Z.of_nat 2))%Q
                   (inject_Z cents / inject_Z (10 ^ Z.of_nat 2))%Q = true)
    by (apply Qle_bool_iff; eval_pow10; unfold Qle; cbn; lia).
  assert (Hmax : Qle_bool (inject_Z cents / inject_Z (10 ^ Z.of_nat 2))%Q
                   (inject_Z 10000) = true)
    by (apply Qle_bool_iff; eval_pow10; unfold Qle; cbn; lia).
  rewrite Hmin, Hmax. reflexivity.
Qed.

End ExactPrices.

(** X14. With prices as exact decimal numbers, whatever text
    [validatePriceInput] accepts denotes a whole number of cents between 1
    and 1000000 (from $0.01 to $10,000.00), and the [formatted] text it
    returns is that amount written with two decimals: digits, a point and
    exactly two digits. *)
Theorem validatePriceInput_accepts_cents (input : string) (v : Exact.number)
    (f : option string) :
  validatePriceInput input = Valid v f ->
  exists (cents : Z) (q : Q),
    1 <= cents <= 1000000 /\ v = Exact.Fin q /\ (q * 100 == inject_Z cents)%Q /\
    f = Some (priceText.centsText cents).
Proof. apply validatePriceInput_accepted. Qed.

Lemma validatePriceInput_accepts_cents_witness :
  exists (cents : Z) (q : Q),
    1 <= cents <= 1000000 /\ Exact.Fin (125 # 10) = Exact.Fin q /\
    (q * 100 == inject_Z cents)%Q /\
    Some "12.50"%string = Some (priceText.centsText cents).
Proof.
  apply (validatePriceInput_accepts_cents " $12.5").
  vm_compute. reflexivity.
Defined.

(** X15. With prices as exact decimal numbers, the [formatted] text of an
    accepted price is itself an accepted price: validating it again gives
    the same number and the same text, so formatting loses nothing and is
    stable. *)
Theorem validatePriceInput_formatted_round_trip (input : string)
    (v : Exact.number) (f : option string) :
  validatePriceInput input = Valid v f ->
  exists (text : string) (v' : Exact.number),
    f = Some text /\
    validatePriceInput text = Valid v' (Some text) /\
    num_eqb v v' = true.
Proof.
  intros H.
  destruct (validatePriceInput_accepted _ _ _ H) as (cents & q & Hc & -> & Hq & ->).
  exists (priceText.centsText cents),
    (Exact.Fin (inject_Z cents / inject_Z (10 ^ Z.of_nat 2))%Q).
  split; [reflexivity|].
  split; [apply validatePriceInput_centsText, Hc|].
  cbn [num_eqb Exact.number_JSNumber Exact.eqb].
  apply Qeq_bool_iff. rewrite <- Hq.
  change (inject_Z (10 ^ Z.of_nat 2)) with 100%Q. field.
Qed.

Lemma validatePriceInput_formatted_round_trip_witness :
  exists (text : string) (v' : Exact.number),
    Some "1234.50"%string = Some text /\
    validatePriceInput text = Valid v' (Some text) /\
    num_eqb (Exact.Fin (12345 # 10)) v' = true.
Proof.
  apply (validatePriceInput_formatted_round_trip "$1,234.5").
  vm_compute. reflexivity.
Defined.

(** ** Selecting a puzzle in the calendar *)







(** ** The expectations of the unit tests of the price validation, on doubles *)

(** [tests/utils/mathUtils.test.ts], [validation.validatePriceInput]. *)
Lemma validatePriceInput_tests :
  validatePriceInput "10.99" = Valid (dollars 1099) (Some "10.99"%string) /\
  validatePriceInput "$15.50" = Valid (dollars 1550) (Some "15.50"%string) /\
  validatePriceInput "100" = Valid (Binary64.of_Z 100) (Some "100.00"%string) /\
  validatePriceInput "0.01" = Valid (dollars 1) (Some "0.01"%string) /\
  validatePriceInput " $1,234.56 "
    = Valid (dollars 123456) (Some "1234.56"%string) /\
  validatePriceInput "$10,000"
    = Valid (Binary64.of_Z 10000) (Some "10000.00"%string) /\
  @validatePriceInput Binary64.number _ _ EmptyString = Invalid INVALID_INPUT /\
  @validatePriceInput Binary64.number _ _ "abc" = Invalid INVALID_NUMBER /\
  @validatePriceInput Binary64.number _ _ "10.999" = Invalid DECIMAL_PLACES /\
  @validatePriceInput Binary64.number _ _ "-5" = Invalid INVALID_NUMBER /\
  @validatePriceInput Binary64.number _ _ "0" = Invalid PRICE_RANGE /\
  @validatePriceInput Binary64.number _ _ "10001" = Invalid PRICE_RANGE.
Proof. vm_compute. repeat split; reflexivity. Qed.

(** ** Guesses are validated prices *)

(** X17. [processGuess] with the validation it calls: either the call
    returns false and leaves the state as it was (the input was empty or
    rejected, or the game was over), or it returns true, the game could
    take a guess, and exactly one guess was appended whose value is a whole
    number of cents between $0.01 and $10,000.00 (prices as exact decimal
    numbers).  No other value ever enters a session this way. *)
Theorem processGuess_records_valid_prices_only :
  forall (input : string) (st : AppState Exact.number),
    let result := processGuess (@validatePriceInput Exact.number _ _) input st in
    (snd result = false /\ fst result = st) \/
    (snd result = true /\ canGuess st = true /\
     exists (cents : Z) (q : Q),
       1 <= cents <= 1000000 /\ (q * 100 == inject_Z cents)%Q /\
       guesses (AppState.gameState (fst result))
         = guesses (AppState.gameState st) ++ [createGuessObject (Exact.Fin q) st]).
Proof.
  intros input st result.
  destruct (processGuess_cases (@validatePriceInput Exact.number _ _) input st)
    as [H|(value & formatted & Hvalid & H)]; unfold result; rewrite H.
  - left. split; reflexivity.
  - destruct (canGuess st) eqn:Hcan.
    + right.
      destruct (processValidGuess_guesses value st Hcan) as [Hret Hguesses].
      split; [exact Hret|]. split; [reflexivity|].
      destruct (validatePriceInput_accepted _ _ _ Hvalid)
        as (cents & q & Hc & -> & Hq & _).
      exists cents, q. split; [exact Hc|]. split; [exact Hq|exact Hguesses].
    + left. rewrite (processValidGuess_rejected value st Hcan).
      split; reflexivity.
Qed.
